(** * Boss: key space (bosscore/lookup.py) and cutout parsers
      (bossspatialdb/parsers.py)

    A shallow embedding of the two Python modules and the properties of the
    request addressing and cutout decoding subsystem that rest on them.

    Python objects are modelled as follows.
    - An exception that leaves a call is the [Exn] branch of [pyresult].
    - The rows of the [BossLookup] table are a [list], in insertion order.
    - A request stream is the list of bytes not read yet, together with a
      log of the calls made on it and on the decompressors.
    - Numbers are [Z]; the true division [/] of Python 3 gives a double,
      which is kept as the rational it stands for, after rounding to 53
      bits, and raises when the quotient is beyond the doubles. *)

From Stdlib Require Import ZArith QArith Lia Ascii.
From stdpp Require Import base decidable option list strings pretty gmap.

Local Open Scope Z_scope.
Local Open Scope list_scope.
Local Open Scope stdpp_scope.

(** ** Python results and exceptions *)

(** [ErrorCodes] of bosscore.error, as far as the parsers name them. *)
Inductive ErrorCodes : Type :=
| UNHANDLED_EXCEPTION
| TYPE_ERROR
| REQUEST_TOO_LARGE
| BOSS_SYSTEM_ERROR
| DATATYPE_DOES_NOT_MATCH
| DATA_DIMENSION_MISMATCH
| OTHER_ERROR_CODE (n : Z).

(** The exception classes the two modules distinguish.  [OtherException]
    stands for a subclass of [Exception] that is none of the classes before
    it nor derived from one (zlib.error, the error of blosc, KeyError, ...),
    [NonException] for a [BaseException] that is not an [Exception]
    (KeyboardInterrupt, SystemExit). *)
Inductive pyexn : Type :=
| BossError (message : string) (error_code : ErrorCodes)
| MemoryError (message : string)
| EOFError (message : string)
| ValueError (message : string)
| DoesNotExist
| MultipleObjectsReturned
| OtherException (cls message : string)
| NonException (cls : string).

(** [isinstance(e, Exception)] *)
Definition is_Exception (e : pyexn) : bool :=
  match e with
  | NonException _ => false
  | _ => true
  end.

(** [str(e)] *)
Definition exn_str (e : pyexn) : string :=
  match e with
  | BossError m _ | MemoryError m | EOFError m | ValueError m => m
  | DoesNotExist => "BossLookup matching query does not exist."
  | MultipleObjectsReturned => "get() returned more than one BossLookup"
  | OtherException _ m => m
  | NonException _ => ""
  end.

Inductive pyresult (A : Type) : Type :=
| Val (a : A)
| Exn (e : pyexn).
Arguments Val {A} a.
Arguments Exn {A} e.

(** ** A state and exception monad *)

Definition M (S A : Type) : Type := S -> pyresult A * S.

Definition ret {S A} (a : A) : M S A := fun s => (Val a, s).

Definition raise {S A} (e : pyexn) : M S A := fun s => (Exn e, s).

Definition bind {S A B} (m : M S A) (k : A -> M S B) : M S B :=
  fun s =>
    match m s with
    | (Val a, s') => k a s'
    | (Exn e, s') => (Exn e, s')
    end.

(** [try: m except <handler>]: the handler decides which exceptions it takes;
    [None] lets the exception go on. *)
Definition try_except {S A} (m : M S A) (handler : pyexn -> option (M S A)) : M S A :=
  fun s =>
    match m s with
    | (Val a, s') => (Val a, s')
    | (Exn e, s') =>
        match handler e with
        | Some h => h s'
        | None => (Exn e, s')
        end
    end.

Definition lift {S A} (r : pyresult A) : M S A := fun s => (r, s).

Declare Scope py_scope.
Delimit Scope py_scope with py.
Notation "'let!' x ':=' m 'in' k" := (bind m (fun x => k))
  (at level 10, x name, m at level 100, k at level 200) : py_scope.
Notation "m '>>' k" := (bind m (fun _ => k))
  (at level 90, right associativity) : py_scope.
Local Open Scope py_scope.

(** ** KeySpace: bosscore/lookup.py *)

Module Lookup.

(** A row of the [BossLookup] table; the dict [lookup_data] handed to the
    serializer has the same five entries. *)
Record BossLookup : Type := mkBossLookup {
  lookup_key : string;
  boss_key : string;
  collection_name : string;
  experiment_name : option string;
  channel_layer_name : option string
}.

#[global] Instance BossLookup_eq_dec : EqDecision BossLookup.
Proof. solve_decision. Defined.

Abbreviation table := (list BossLookup).

(** [lookup_data['lookup_key'] = v] and [lookup_data['boss_key'] = v] *)
Definition set_lookup_key (v : string) (d : BossLookup) : BossLookup :=
  mkBossLookup v (boss_key d) (collection_name d) (experiment_name d) (channel_layer_name d).

Definition set_boss_key (v : string) (d : BossLookup) : BossLookup :=
  mkBossLookup (lookup_key d) v (collection_name d) (experiment_name d) (channel_layer_name d).

(** Truth value of a Python argument in an [if]. *)
Definition truthy_str (s : string) : bool := negb (bool_decide (s = "")).

Definition truthy_opt_str (s : option string) : bool :=
  match s with
  | None => false
  | Some s => truthy_str s
  end.

Definition truthy_opt_int (n : option Z) : bool :=
  match n with
  | None => false
  | Some n => negb (n =? 0)
  end.

(** [range(n)] *)
Definition range (n : Z) : list Z := Z.of_nat <$> seq 0 (Z.to_nat n).

(** [str(time)] *)
Definition str (n : Z) : string := pretty n.

(** [BossLookup.objects.get(boss_key=bkey)], Django's [QuerySet.get]:
    the one row that matches, [DoesNotExist] when there is none,
    [MultipleObjectsReturned] when there are several. *)
Definition objects_get (bkey : string) : M table BossLookup :=
  fun db =>
    match filter (fun r => boss_key r = bkey) db with
    | [] => (Exn DoesNotExist, db)
    | [r] => (Val r, db)
    | _ :: _ :: _ => (Exn MultipleObjectsReturned, db)
    end.

(** Modelled from the spec: the [BossLookup] model and its serializer
    (bosscore/models.py, bosscore/serializers.py) are not part of the
    sources at hand.  By section 4.1 the store rejects a record whose exact
    lookup key / boss key pair already exists. *)
Definition unique_pair_valid (db : table) (d : BossLookup) : bool :=
  bool_decide (Forall (fun r => ~ (lookup_key r = lookup_key d /\ boss_key r = boss_key d)) db).

Section KeySpace.

(** [BossLookupSerializer(data=d).is_valid()], against the rows stored. *)
Variable is_valid : table -> BossLookup -> bool.

Definition serializer_is_valid (d : BossLookup) : M table bool :=
  fun db => (Val (is_valid db d), db).

(** [serializer.save()] adds the row. *)
Definition serializer_save (d : BossLookup) : M table unit :=
  fun db => (Val tt, db ++ [d]).

(** The body of [for time in range(max_time_sample+1)], run over the
    times left; the dict [lookup_data] is updated in place and so is
    threaded through the iterations. *)
Fixpoint time_loop (lookup_key0 boss_key0 : string) (times : list Z)
    (lookup_data : BossLookup) : M table BossLookup :=
  match times with
  | [] => ret lookup_data
  | time :: rest =>
      let lookup_data := set_lookup_key ((lookup_key0 +:+ "&") +:+ str time) lookup_data in
      let lookup_data := set_boss_key ((boss_key0 +:+ "&") +:+ str time) lookup_data in
      let! valid := serializer_is_valid lookup_data in
      (if valid then serializer_save lookup_data else ret tt) >>
      time_loop lookup_key0 boss_key0 rest lookup_data
  end.

Definition add_lookup (lookup_key0 boss_key0 collection_name0 : string)
    (experiment_name0 channel_layer_name0 : option string)
    (max_time_sample : option Z) : M table unit :=
  let lookup_data :=
    mkBossLookup lookup_key0 boss_key0 collection_name0 experiment_name0 channel_layer_name0 in
  let! valid := serializer_is_valid lookup_data in
  if valid then
    serializer_save lookup_data >>
    if truthy_str collection_name0 && truthy_opt_str experiment_name0
       && truthy_opt_str channel_layer_name0 && truthy_opt_int max_time_sample
    then
      match max_time_sample with
      | Some n => time_loop lookup_key0 boss_key0 (range (n + 1)) lookup_data >> ret tt
      | None => ret tt
      end
    else ret tt
  else ret tt.

Definition get_lookup_key (bkey : string) : M table BossLookup :=
  let! lookup_obj := objects_get bkey in
  ret lookup_obj.

End KeySpace.

(** The rows a call added to the table [db] it started from. *)
Definition created (db db' : table) : table := drop (length db) db'.

(** The record the loop stores for [time]. *)
Definition time_record (base : BossLookup) (time : Z) : BossLookup :=
  mkBossLookup ((lookup_key base +:+ "&") +:+ str time)
               ((boss_key base +:+ "&") +:+ str time)
               (collection_name base) (experiment_name base) (channel_layer_name base).

(** What one pass of the loop stores, seen from the dict it starts with. *)
Definition loop_record (lk bk : string) (d : BossLookup) (t : Z) : BossLookup :=
  mkBossLookup ((lk +:+ "&") +:+ str t) ((bk +:+ "&") +:+ str t)
               (collection_name d) (experiment_name d) (channel_layer_name d).

(** The pair of keys a row maps. *)
Definition key_pair (r : BossLookup) : string * string := (lookup_key r, boss_key r).

End Lookup.

(** ** CutoutCodec: bossspatialdb/parsers.py *)

Module Codec.

Definition bytes : Type := list Byte.byte.

(** What [parse] reads from a validated [BossRequest]: the spans, the
    [range] object of [get_time()] and the [time_request] flag. *)
Record BossRequest : Type := mkBossRequest {
  x_span : Z;
  y_span : Z;
  z_span : Z;
  time_start : Z;
  time_stop : Z;
  time_request : bool
}.

(** [len(req.get_time())], the length of [range(start, stop)]. *)
Definition time_len (req : BossRequest) : Z := Z.max 0 (time_stop req - time_start req).

(** A numpy element type: its name and the bytes one element takes. *)
Record dtype : Type := mkDtype {
  dtype_name : string;
  itemsize : nat
}.

(** A numpy array: its shape and its elements in C (row-major) order, each
    element as its [itemsize] bytes. *)
Record ndarray : Type := mkNdarray {
  shape : list Z;
  arr_dtype : dtype;
  flat : list bytes
}.

(** What [parse] asks of the [BossResourceDjango] object. *)
Record BossResource : Type := mkBossResource {
  get_data_type : string;
  get_bit_depth : pyresult Z;
  get_numpy_data_type : dtype
}.

(** [parser_context]: the outcome of building the [BossRequest] from the URL
    arguments, and of [spdb.project.BossResourceDjango(req)], which is
    called outside every [try]. *)
Record parser_context : Type := mkContext {
  build_request : pyresult BossRequest;
  build_resource : BossRequest -> pyresult BossResource
}.

(** The value [parse] returns. *)
Inductive parse_result : Type :=
| BossParserError (message : string) (code : ErrorCodes)
| Parsed (req : BossRequest) (resource : BossResource) (parsed_data : ndarray).

(** Calls recorded while [parse] runs. *)
Inductive event : Type :=
| EvStreamRead
| EvBloscDecompress
| EvBloscUnpackArray
| EvZlibDecompress
| EvNpLoad.

#[global] Instance event_eq_dec : EqDecision event.
Proof. solve_decision. Defined.

(** The request stream and the log of calls.  [read_raises] is the exception
    a [read()] of this stream ends in, if any. *)
Record world : Type := mkWorld {
  unread : bytes;
  read_raises : option pyexn;
  log : list event
}.

Definition record_event (ev : event) : M world unit :=
  fun w => (Val tt, mkWorld (unread w) (read_raises w) (log w ++ [ev])).

(** [stream.read()]: all the bytes not read yet. *)
Definition stream_read : M world bytes :=
  record_event EvStreamRead >>
  fun w =>
    match read_raises w with
    | Some e => (Exn e, w)
    | None => (Val (unread w), mkWorld [] None (log w))
    end.

(** [ConsumeReqMixin.consume_request] *)
Definition consume_request : M world unit :=
  try_except (stream_read >> ret tt) (fun _ => Some (ret tt)).

(** Product of the dimensions of a shape. *)
Definition prod_shape (sh : list Z) : Z := foldr Z.mul 1 sh.

(** [np.fromstring(raw, dtype=dt)]: a flat array of the elements of [raw]. *)
Fixpoint chunks (fuel k : nat) (raw : bytes) : list bytes :=
  match fuel with
  | O => []
  | S fuel' =>
      match raw with
      | [] => []
      | _ :: _ => take k raw :: chunks fuel' k (drop k raw)
      end
  end.

Definition np_fromstring (raw : bytes) (dt : dtype) : pyresult ndarray :=
  match itemsize dt with
  | O => Exn (ValueError "itemsize cannot be zero in type")
  | S _ =>
      if (Nat.modulo (length raw) (itemsize dt) =? 0)%nat
      then let items := chunks (length raw) (itemsize dt) raw in
           Val (mkNdarray [Z.of_nat (length items)] dt items)
      else Exn (ValueError "string size must be a multiple of element size")
  end.

(** [np.reshape(a, newshape, order='C')].  One dimension may be [-1] and is
    then inferred; any other negative dimension, or a product that is not the
    number of elements, is a [ValueError]. *)
Definition np_reshape (a : ndarray) (newshape : list Z) : pyresult ndarray :=
  let size := Z.of_nat (length (flat a)) in
  let known := filter (fun d => d <> -1) newshape in
  match length (filter (fun d => d = -1) newshape) with
  | O =>
      if forallb (fun d => 0 <=? d) newshape && (prod_shape newshape =? size)
      then Val (mkNdarray newshape (arr_dtype a) (flat a))
      else Exn (ValueError "cannot reshape array")
  | 1%nat =>
      if forallb (fun d => 0 <=? d) known && negb (prod_shape known =? 0)
         && (size mod prod_shape known =? 0)
      then Val (mkNdarray ((fun d => if decide (d = -1) then size / prod_shape known else d)
                             <$> newshape)
                          (arr_dtype a) (flat a))
      else Exn (ValueError "cannot reshape array")
  | _ => Exn (ValueError "can only specify one unknown dimension")
  end.

(** Position of the element at a multi-index in the C-ordered buffer. *)
Fixpoint c_offset (acc : Z) (sh idx : list Z) : option Z :=
  match sh, idx with
  | [], [] => Some acc
  | d :: sh', i :: idx' =>
      if (0 <=? i) && (i <? d) then c_offset (acc * d + i) sh' idx' else None
  | _, _ => None
  end.

(** [a[idx]] *)
Definition item (a : ndarray) (idx : list Z) : option bytes :=
  match c_offset 0 (shape a) idx with
  | Some off => flat a !! Z.to_nat off
  | None => None
  end.

(** The whole number a double holds when Python rounds the whole number [n]
    to 53 significant bits, to nearest and ties to even. *)
Definition round_double (n : Z) : Z :=
  let a := Z.abs n in
  let e := Z.log2 a - 52 in
  if e <=? 0 then n
  else
    let q := a / 2 ^ e in
    let r := a mod 2 ^ e in
    let half := 2 ^ (e - 1) in
    let q' := if r <? half then q
              else if half <? r then q + 1
              else if Z.even q then q else q + 1 in
    Z.sgn n * (q' * 2 ^ e).

Definition overflow_error : pyexn :=
  OtherException "OverflowError" "integer division result too large for a float".

(** [n / 8] for an int [n]: the double nearest to the exact quotient, and
    [OverflowError] when that is beyond the doubles (2^1024 and up).
    Dividing by 8 changes the exponent only, so the result is the double
    nearest to [n], over 8. *)
Definition int_true_div_8 (n : Z) : pyresult Q :=
  let m := round_double n in
  if 2 ^ 1027 <=? Z.abs m then Exn overflow_error
  else Val (inject_Z m / inject_Z 8)%Q.

Section Parsers.

(** [settings.CUTOUT_MAX_SIZE] *)
Variable CUTOUT_MAX_SIZE : Z.

(** The decompressors and array readers of blosc, zlib and numpy. *)
Variable blosc_decompress : bytes -> pyresult bytes.
Variable blosc_unpack_array : bytes -> pyresult ndarray.
Variable zlib_decompress : bytes -> pyresult bytes.
Variable np_load : bytes -> pyresult ndarray.

(** [is_too_large].  The product of the ints is exact; [/8] gives a
    double, as above, or raises; [/= 4] of that double and its comparison
    with the int ceiling are exact. *)
Definition is_too_large (request_obj : BossRequest) (bit_depth : Z) : pyresult bool :=
  let t_span := time_stop request_obj - time_start request_obj in
  match int_true_div_8 (x_span request_obj * y_span request_obj * z_span request_obj
                        * t_span * bit_depth) with
  | Exn e => Exn e
  | Val total_bytes =>
      let total_bytes : Q :=
        if bit_depth =? 64 then (total_bytes / inject_Z 4)%Q else total_bytes in
      Val (if Qlt_le_dec (inject_Z CUTOUT_MAX_SIZE) total_bytes then true else false)
  end.

Definition call_blosc_decompress (b : bytes) : M world bytes :=
  record_event EvBloscDecompress >> lift (blosc_decompress b).

Definition call_blosc_unpack_array (b : bytes) : M world ndarray :=
  record_event EvBloscUnpackArray >> lift (blosc_unpack_array b).

Definition call_zlib_decompress (b : bytes) : M world bytes :=
  record_event EvZlibDecompress >> lift (zlib_decompress b).

Definition call_np_load (b : bytes) : M world ndarray :=
  record_event EvNpLoad >> lift (np_load b).

Definition too_large_message : string :=
  "Cutout request is over 500MB when uncompressed. Reduce cutout dimensions.".

Definition out_of_memory_message : string := "Ran out of memory decompressing data.".

Definition decompress_failed_message : string :=
  "Failed to decompress data. Verify the datatype/bitdepth of your data matches the channel.".

Definition unpack_failed_message : string :=
  "Failed to unpack data. Verify the datatype of your POSTed data and xyz dimensions used in the POST URL.".

Definition unsupported_type_message (resource : BossResource) : string :=
  "Unsupported data type provided to parser: " +:+ get_data_type resource.

(** The first [try] of every [parse]: build the request; both handlers
    consume the stream and return an error value ([inl]). *)
Definition process_request (ctx : parser_context) : M world (parse_result + BossRequest) :=
  try_except
    (let! req := lift (build_request ctx) in ret (inr req))
    (fun err =>
       match err with
       | BossError message error_code =>
           Some (consume_request >> ret (inl (BossParserError message error_code)))
       | _ =>
           if is_Exception err
           then Some (consume_request >>
                      ret (inl (BossParserError (exn_str err) UNHANDLED_EXCEPTION)))
           else None
       end).

(** [bit_depth = resource.get_bit_depth()] under [except ValueError].  The
    handler of [BloscParser] returns at once; the other two parsers consume
    the stream first. *)
Definition bit_depth_or_error (consume : bool) (resource : BossResource)
    : M world (parse_result + Z) :=
  try_except
    (let! bit_depth := lift (get_bit_depth resource) in ret (inr bit_depth))
    (fun err =>
       match err with
       | ValueError _ =>
           Some ((if consume then consume_request else ret tt) >>
                 ret (inl (BossParserError (unsupported_type_message resource) TYPE_ERROR)))
       | _ => None
       end).

(** [BloscParser.parse] *)
Definition BloscParser_parse (ctx : parser_context) : M world parse_result :=
  let! r := process_request ctx in
  match r with
  | inl err => ret err
  | inr req =>
      let! resource := lift (build_resource ctx req) in
      let! b := bit_depth_or_error false resource in
      match b with
      | inl err => ret err
      | inr bit_depth =>
          let! too_large := lift (is_too_large req bit_depth) in
          if too_large
          then ret (BossParserError too_large_message REQUEST_TOO_LARGE)
          else
            let! d :=
              try_except
                (let! payload := stream_read in
                 let! raw_data := call_blosc_decompress payload in
                 let! data_mat := lift (np_fromstring raw_data (get_numpy_data_type resource)) in
                 ret (inr data_mat))
                (fun err =>
                   match err with
                   | MemoryError _ =>
                       Some (ret (inl (BossParserError out_of_memory_message
                                         BOSS_SYSTEM_ERROR)))
                   | _ =>
                       Some (ret (inl (BossParserError decompress_failed_message
                                         DATATYPE_DOES_NOT_MATCH)))
                   end) in
            match d with
            | inl err => ret err
            | inr data_mat =>
                let! p :=
                  try_except
                    (let! parsed_data :=
                       lift (if time_request req
                             then np_reshape data_mat
                                    [time_len req; z_span req; y_span req; x_span req]
                             else np_reshape data_mat [z_span req; y_span req; x_span req]) in
                     ret (inr parsed_data))
                    (fun err =>
                       match err with
                       | ValueError _ =>
                           Some (ret (inl (BossParserError unpack_failed_message
                                             DATA_DIMENSION_MISMATCH)))
                       | _ => None
                       end) in
                match p with
                | inl err => ret err
                | inr parsed_data => ret (Parsed req resource parsed_data)
                end
            end
      end
  end.

(** The handlers of the last [try] of [BloscPythonParser] and
    [NpygzParser]: [MemoryError] and [EOFError] only. *)
Definition unpack_handlers (err : pyexn) : option (M world (parse_result + ndarray)) :=
  match err with
  | MemoryError _ =>
      Some (ret (inl (BossParserError out_of_memory_message BOSS_SYSTEM_ERROR)))
  | EOFError _ =>
      Some (ret (inl (BossParserError unpack_failed_message DATA_DIMENSION_MISMATCH)))
  | _ => None
  end.

(** [BloscPythonParser.parse] *)
Definition BloscPythonParser_parse (ctx : parser_context) : M world parse_result :=
  let! r := process_request ctx in
  match r with
  | inl err => ret err
  | inr req =>
      let! resource := lift (build_resource ctx req) in
      let! b := bit_depth_or_error true resource in
      match b with
      | inl err => ret err
      | inr bit_depth =>
          let! too_large := lift (is_too_large req bit_depth) in
          if too_large
          then consume_request >> ret (BossParserError too_large_message REQUEST_TOO_LARGE)
          else
            let! p :=
              try_except
                (let! payload := stream_read in
                 let! parsed_data := call_blosc_unpack_array payload in
                 ret (inr parsed_data))
                unpack_handlers in
            match p with
            | inl err => ret err
            | inr parsed_data => ret (Parsed req resource parsed_data)
            end
      end
  end.

(** [NpygzParser.parse] *)
Definition NpygzParser_parse (ctx : parser_context) : M world parse_result :=
  let! r := process_request ctx in
  match r with
  | inl err => ret err
  | inr req =>
      let! resource := lift (build_resource ctx req) in
      let! b := bit_depth_or_error true resource in
      match b with
      | inl err => ret err
      | inr bit_depth =>
          let! too_large := lift (is_too_large req bit_depth) in
          if too_large
          then consume_request >> ret (BossParserError too_large_message REQUEST_TOO_LARGE)
          else
            let! p :=
              try_except
                (let! payload := stream_read in
                 let! data_bytes := call_zlib_decompress payload in
                 let! parsed_data := call_np_load data_bytes in
                 ret (inr parsed_data))
                unpack_handlers in
            match p with
            | inl err => ret err
            | inr parsed_data => ret (Parsed req resource parsed_data)
            end
      end
  end.

(** The three wire encodings and their parsers. *)
Inductive parser : Type := BloscParser | BloscPythonParser | NpygzParser.

Definition parse (p : parser) : parser_context -> M world parse_result :=
  match p with
  | BloscParser => BloscParser_parse
  | BloscPythonParser => BloscPythonParser_parse
  | NpygzParser => NpygzParser_parse
  end.

End Parsers.

Arguments round_double : simpl never.
Arguments int_true_div_8 : simpl never.
Arguments is_too_large : simpl never.

(** A decompressor or array reader was called. *)
Definition decompression_event (ev : event) : bool :=
  match ev with
  | EvStreamRead => false
  | _ => true
  end.

(** A fresh stream holding [payload]. *)
Definition fresh_stream (payload : bytes) : world := mkWorld payload None [].

End Codec.

(** ** MetadataStore: bosscore/metadb.py *)

Module MetaDB.

(** An item of the table: its two attributes. *)
Record item : Type := mkItem {
  metakey : string;
  metavalue : string
}.

(** The requests [MetaDB] sends to the DynamoDB table. *)
Inductive request : Type :=
| PutItem (key value : string)
| GetItem (key : string)
| DeleteItem (key : string)
| UpdateItem (key newvalue : string).

Definition request_key (r : request) : string :=
  match r with
  | PutItem key _ | GetItem key | DeleteItem key | UpdateItem key _ => key
  end.

(** The table [self.table], items by their key attribute ['metakey'], and
    what [print] has written. *)
Record state : Type := mkState {
  items : gmap string string;
  stdout : list string
}.

(** The response of [delete_item] with [ReturnValues='ALL_OLD']: the item
    as it was, under ['Attributes'], when there was one. *)
Record delete_response : Type := mkDeleteResponse {
  old_attributes : option item
}.

(** The response of [update_item] with [ReturnValues='UPDATED_NEW']: the
    attribute that was set, with its new value. *)
Record update_response : Type := mkUpdateResponse {
  new_metavalue : string
}.

(** A table that refuses an empty key, as DynamoDB does. *)
Definition refuses_empty_key (r : request) : option pyexn :=
  if bool_decide (request_key r = "")
  then Some (OtherException "ClientError" "ValidationException")
  else None.

Section Table.

(** The error the service answers a request with, if it does not carry it
    out (validation, throttling, a table that is not there). *)
Variable refuses : request -> option pyexn.

(** [self.table.put_item(Item=...)]: the item replaces the one under its key. *)
Definition put_item (key value : string) : M state unit :=
  fun s =>
    match refuses (PutItem key value) with
    | Some e => (Exn e, s)
    | None => (Val tt, mkState (<[key := value]> (items s)) (stdout s))
    end.

(** [self.table.get_item(Key=...)]: the response has ['Item'] when the key
    is there. *)
Definition get_item (key : string) : M state (option item) :=
  fun s =>
    match refuses (GetItem key) with
    | Some e => (Exn e, s)
    | None => (Val (mkItem key <$> items s !! key), s)
    end.

(** [self.table.delete_item(Key=..., ReturnValues='ALL_OLD')] *)
Definition delete_item (key : string) : M state delete_response :=
  fun s =>
    match refuses (DeleteItem key) with
    | Some e => (Exn e, s)
    | None => (Val (mkDeleteResponse (mkItem key <$> items s !! key)),
               mkState (delete key (items s)) (stdout s))
    end.

(** [self.table.update_item(Key=..., UpdateExpression='SET metavalue = :val1',
    ...)]: sets the attribute, and adds the item when the key is not there. *)
Definition update_item (key newvalue : string) : M state update_response :=
  fun s =>
    match refuses (UpdateItem key newvalue) with
    | Some e => (Exn e, s)
    | None => (Val (mkUpdateResponse newvalue),
               mkState (<[key := newvalue]> (items s)) (stdout s))
    end.

(** [print (key)] *)
Definition print (line : string) : M state unit :=
  fun s => (Val tt, mkState (items s) (stdout s ++ [line])).

Definition writemeta (key value : string) : M state unit :=
  let! response := put_item key value in
  ret tt.

Definition getmeta (key : string) : M state (option item) :=
  print key >>
  let! response := get_item key in
  match response with
  | Some the_item => ret (Some the_item)
  | None => ret None
  end.

Definition deletemeta (key : string) : M state delete_response :=
  let! response := delete_item key in
  ret response.

Definition updatemeta (key newvalue : string) : M state update_response :=
  let! response := update_item key newvalue in
  ret response.

End Table.

End MetaDB.

(** ** The keys of the test fixtures: bosscore/test/setup_db.py *)

Module SetupDB.

Import Lookup.

(** [lkup_key] and [bs_key] as [add_collection], [add_experiment] and
    [add_channel] build them, from the primary keys and from the names. *)
Definition collection_lkup_key (col_pk : Z) : string := str col_pk.

Definition collection_bs_key (col_name : string) : string := col_name.

Definition experiment_lkup_key (col_pk exp_pk : Z) : string :=
  (str col_pk +:+ "&") +:+ str exp_pk.

Definition experiment_bs_key (col_name exp_name : string) : string :=
  (col_name +:+ "&") +:+ exp_name.

Definition channel_lkup_key (col_pk exp_pk channel_pk : Z) : string :=
  (((str col_pk +:+ "&") +:+ str exp_pk) +:+ "&") +:+ str channel_pk.

Definition channel_bs_key (col_name exp_name channel_name : string) : string :=
  (((col_name +:+ "&") +:+ exp_name) +:+ "&") +:+ channel_name.

(** How many times the separator occurs in a key. *)
Fixpoint count_amp (s : string) : nat :=
  match s with
  | EmptyString => 0
  | String c s' => (if Ascii.eqb c "&"%char then 1 else 0) + count_amp s'
  end.

End SetupDB.

(** ** Sample requests, resources and payloads *)

Module Samples.

Import Codec.

Definition uint8 : dtype := mkDtype "uint8" 1.
Definition uint16 : dtype := mkDtype "uint16" 2.
Definition uint64 : dtype := mkDtype "uint64" 8.

(** The ceiling of the deployed settings, in bytes. *)
Definition max_size : Z := 520000000.

Definition payload : bytes := [Byte.x01; Byte.x02; Byte.x03; Byte.x04].

Definition image_resource : BossResource := mkBossResource "uint8" (Val 8) uint8.

Definition annotation_resource : BossResource := mkBossResource "uint64" (Val 64) uint64.

(** A resource whose data type the parsers do not know. *)
Definition float_resource : BossResource :=
  mkBossResource "float32" (Exn (ValueError "Unsupported data type")) (mkDtype "float32" 4).

(** A cutout of 2 x 2 x 1 voxels at the default time sample. *)
Definition small_request : BossRequest := mkBossRequest 2 2 1 0 1 false.

(** 1024 x 1024 x 512 voxels of 8 bits: 536870912 bytes. *)
Definition huge_image_request : BossRequest := mkBossRequest 1024 1024 512 0 1 false.

(** 512 x 512 x 256 voxels of 64 bits: 536870912 bytes, a quarter of which is
    below the ceiling. *)
Definition large_annotation_request : BossRequest := mkBossRequest 512 512 256 0 1 false.

Definition small_image_context : parser_context :=
  mkContext (Val small_request) (fun _ => Val image_resource).

Definition huge_image_context : parser_context :=
  mkContext (Val huge_image_request) (fun _ => Val image_resource).

Definition large_annotation_context : parser_context :=
  mkContext (Val large_annotation_request) (fun _ => Val annotation_resource).

Definition float_context : parser_context :=
  mkContext (Val small_request) (fun _ => Val float_resource).

(** Decompressors on a payload they take, and on one they reject. *)
Definition blosc_ok (b : bytes) : pyresult bytes := Val b.

Definition blosc_corrupt (_ : bytes) : pyresult bytes :=
  Exn (OtherException "blosc_extension.error" "Error -1 while decompressing data").

Definition zlib_ok (b : bytes) : pyresult bytes := Val b.

Definition zlib_corrupt (_ : bytes) : pyresult bytes :=
  Exn (OtherException "zlib.error" "Error -3 while decompressing data: incorrect header check").

(** A self-describing payload that holds five 16-bit values in one row. *)
Definition row_of_five : ndarray :=
  mkNdarray [5] uint16
    [[Byte.x01; Byte.x00]; [Byte.x02; Byte.x00]; [Byte.x03; Byte.x00];
     [Byte.x04; Byte.x00]; [Byte.x05; Byte.x00]].

Definition unpack_row_of_five (_ : bytes) : pyresult ndarray := Val row_of_five.

Definition unpack_corrupt (_ : bytes) : pyresult ndarray :=
  Exn (OtherException "blosc_extension.error" "Error -1 while decompressing data").

Definition load_row_of_five (_ : bytes) : pyresult ndarray := Val row_of_five.

(** A request the validation refuses, and one whose URL arguments are
    missing. *)
Definition out_of_bounds_context : parser_context :=
  mkContext (Exn (BossError "Invalid extent requested" (OTHER_ERROR_CODE 4002)))
            (fun _ => Val image_resource).

Definition missing_argument_context : parser_context :=
  mkContext (Exn (OtherException "KeyError" "'x_range'")) (fun _ => Val image_resource).

(** Decompressors that run out of memory, and that find the payload cut
    short. *)
Definition blosc_out_of_memory (_ : bytes) : pyresult bytes := Exn (MemoryError "").

Definition unpack_truncated (_ : bytes) : pyresult ndarray :=
  Exn (EOFError "Ran out of input").




(** A resource object that cannot be built. *)
Definition no_resource_context : parser_context :=
  mkContext (Val small_request)
            (fun _ => Exn (OtherException "AttributeError" "no such attribute")).




End Samples.

(** * Properties of the key space *)

Import Lookup.

(** ** Strings: keys with a time suffix *)

Lemma append_cons (a : Ascii.ascii) (s x : string) : String a s +:+ x = String a (s +:+ x).
Proof. reflexivity. Qed.

Lemma suffixed_key_ne (s x : string) : (s +:+ "&") +:+ x <> s.
Proof.
  induction s as [|a s IH]; intros H.
  - discriminate H.
  - rewrite !append_cons in H. injection H as H. exact (IH H).
Qed.

Lemma suffixed_key_inj (s : string) (t t' : Z) :
  (s +:+ "&") +:+ str t = (s +:+ "&") +:+ str t' -> t = t'.
Proof.
  intros H. apply (inj (String.append (s +:+ "&"))) in H.
  unfold str in H. exact (inj pretty _ _ H).
Qed.

Lemma time_record_names (base : BossLookup) (t : Z) :
  collection_name (time_record base t) = collection_name base
  /\ experiment_name (time_record base t) = experiment_name base
  /\ channel_layer_name (time_record base t) = channel_layer_name base.
Proof. repeat split. Qed.

Lemma loop_record_base (lk bk cn : string) (en chn : option string) (t : Z) :
  loop_record lk bk (mkBossLookup lk bk cn en chn) t
  = time_record (mkBossLookup lk bk cn en chn) t.
Proof. reflexivity. Qed.

(** The loop never fails, only appends rows, and every row it appends is
    the record of one of its times. *)
Lemma time_loop_appends (is_valid : table -> BossLookup -> bool) (lk bk : string)
    (times : list Z) :
  forall (d : BossLookup) (db : table),
  exists (d' : BossLookup) (added : table),
    time_loop is_valid lk bk times d db = (Val d', db ++ added)
    /\ Forall (fun r => exists t, t ∈ times /\ r = loop_record lk bk d t) added.
Proof.
  induction times as [|t rest IH]; intros d db.
  - exists d, []. split; [|constructor]. simpl. unfold ret. by rewrite app_nil_r.
  - simpl. unfold bind at 1. unfold serializer_is_valid at 1.
    set (d1 := set_boss_key _ _).
    assert (Hd1 : d1 = loop_record lk bk d t) by reflexivity.
    assert (Hrec : forall t', loop_record lk bk d1 t' = loop_record lk bk d t')
      by (intros t'; rewrite Hd1; reflexivity).
    destruct (is_valid db d1); unfold bind, serializer_save, ret.
    + destruct (IH d1 (db ++ [d1])) as (d' & added & Heq & Hall).
      exists d', (d1 :: added). rewrite Heq. split.
      * by rewrite <- app_assoc.
      * constructor.
        -- exists t. split; [left | exact Hd1].
        -- eapply Forall_impl; [exact Hall|]. intros r (t' & Hin & ->).
           exists t'. split; [by right | apply Hrec].
    + destruct (IH d1 db) as (d' & added & Heq & Hall).
      exists d', added. rewrite Heq. split; [done|].
      eapply Forall_impl; [exact Hall|]. intros r (t' & Hin & ->).
      exists t'. split; [by right | apply Hrec].
Qed.

(** [add_lookup] returns [None], only appends rows, and every row it appends
    is the base record or the record of a time of [range(max_time_sample+1)]. *)
Lemma add_lookup_appends (is_valid : table -> BossLookup -> bool) (lk bk cn : string)
    (en chn : option string) (mts : option Z) (db : table) :
  exists added : table,
    add_lookup is_valid lk bk cn en chn mts db = (Val tt, db ++ added)
    /\ Forall (fun r => r = mkBossLookup lk bk cn en chn
                        \/ exists n t, mts = Some n /\ t ∈ range (n + 1)
                             /\ r = time_record (mkBossLookup lk bk cn en chn) t) added.
Proof.
  set (base := mkBossLookup lk bk cn en chn).
  unfold add_lookup. fold base. unfold bind at 1. unfold serializer_is_valid at 1.
  destruct (is_valid db base).
  - unfold bind at 1. unfold serializer_save at 1.
    destruct (truthy_str cn && truthy_opt_str en && truthy_opt_str chn
              && truthy_opt_int mts); [destruct mts as [n|]|].
    + unfold bind.
      destruct (time_loop_appends is_valid lk bk (range (n + 1)) base (db ++ [base]))
        as (d' & added & Heq & Hall).
      rewrite Heq. unfold ret. exists (base :: added). split.
      * by rewrite <- app_assoc.
      * constructor; [by left|].
        eapply Forall_impl; [exact Hall|]. intros r (t & Hin & ->).
        right. exists n, t. split; [done|]. split; [done|]. apply loop_record_base.
    + exists [base]. split; [done|]. constructor; [by left | constructor].
    + exists [base]. split; [done|]. constructor; [by left | constructor].
  - exists []. split; [|constructor]. unfold ret. by rewrite app_nil_r.
Qed.

(** A base record the validator takes is stored first. *)
Lemma add_lookup_stores_base (is_valid : table -> BossLookup -> bool) (lk bk cn : string)
    (en chn : option string) (mts : option Z) (db : table) :
  is_valid db (mkBossLookup lk bk cn en chn) = true ->
  exists rest : table,
    add_lookup is_valid lk bk cn en chn mts db
    = (Val tt, db ++ mkBossLookup lk bk cn en chn :: rest).
Proof.
  intros Hvalid. unfold add_lookup. unfold bind at 1. unfold serializer_is_valid at 1.
  rewrite Hvalid. unfold bind at 1. unfold serializer_save at 1.
  destruct (truthy_str cn && truthy_opt_str en && truthy_opt_str chn
            && truthy_opt_int mts); [destruct mts as [n|]|]; try (by exists []).
  unfold bind.
  destruct (time_loop_appends is_valid lk bk (range (n + 1))
              (mkBossLookup lk bk cn en chn) (db ++ [mkBossLookup lk bk cn en chn]))
    as (d' & added & Heq & _).
  rewrite Heq. exists added. unfold ret. by rewrite <- app_assoc.
Qed.

Lemma created_app (db added : table) : created db (db ++ added) = added.
Proof. unfold created. by rewrite drop_app_length. Qed.

(** ** The validator of the spec *)

Lemma unique_pair_valid_true (db : table) (d : BossLookup) :
  unique_pair_valid db d = true
  <-> Forall (fun r => ~ (lookup_key r = lookup_key d /\ boss_key r = boss_key d)) db.
Proof. unfold unique_pair_valid. apply bool_decide_eq_true. Qed.

Lemma unique_pair_valid_rejects (db : table) (d : BossLookup) :
  Exists (fun r => lookup_key r = lookup_key d /\ boss_key r = boss_key d) db ->
  unique_pair_valid db d = false.
Proof.
  intros Hex. apply bool_decide_eq_false. intros Hall.
  apply Exists_exists in Hex as (r & Hin & Hr).
  rewrite Forall_forall in Hall. exact (Hall r Hin Hr).
Qed.

(** With the validator of the spec, on a table that holds none of the
    pairs, the loop stores one record per time, in order. *)
Lemma time_loop_unique (lk bk : string) (times : list Z) :
  forall (d : BossLookup) (db : table),
  NoDup times ->
  Forall (fun t => Forall (fun r => ~ (lookup_key r = (lk +:+ "&") +:+ str t
                                       /\ boss_key r = (bk +:+ "&") +:+ str t)) db) times ->
  exists d' : BossLookup,
    time_loop unique_pair_valid lk bk times d db
    = (Val d', db ++ (loop_record lk bk d <$> times)).
Proof.
  induction times as [|t rest IH]; intros d db Hnd Hfresh.
  - exists d. simpl. unfold ret. by rewrite app_nil_r.
  - apply NoDup_cons in Hnd as [Hnotin Hnd].
    apply Forall_cons in Hfresh as [Ht Hrest].
    simpl. unfold bind at 1. unfold serializer_is_valid at 1.
    set (d1 := set_boss_key _ _).
    assert (Hd1 : d1 = loop_record lk bk d t) by reflexivity.
    assert (Hvalid : unique_pair_valid db d1 = true).
    { apply unique_pair_valid_true. rewrite Hd1. exact Ht. }
    rewrite Hvalid. unfold bind, serializer_save.
    assert (Hfresh1 : Forall (fun t' => Forall (fun r =>
              ~ (lookup_key r = (lk +:+ "&") +:+ str t'
                 /\ boss_key r = (bk +:+ "&") +:+ str t')) (db ++ [d1])) rest).
    { rewrite Forall_forall in Hrest. apply Forall_forall. intros t' Hin.
      apply Forall_app. split; [exact (Hrest t' Hin)|].
      constructor; [|constructor]. rewrite Hd1. simpl. intros [Hk _].
      apply suffixed_key_inj in Hk. subst t'. exact (Hnotin Hin). }
    destruct (IH d1 (db ++ [d1]) Hnd Hfresh1) as (d' & Heq).
    exists d'. rewrite Heq. rewrite <- app_assoc. reflexivity.
Qed.

Lemma NoDup_range (n : Z) : NoDup (range n).
Proof.
  unfold range. apply NoDup_fmap; [|apply NoDup_seq].
  intros a b H. lia.
Qed.

Lemma elem_of_range (n t : Z) : t ∈ range n <-> 0 <= t < n.
Proof.
  unfold range. rewrite list_elem_of_fmap. split.
  - intros (k & -> & Hk). apply elem_of_seq in Hk. lia.
  - intros Ht. exists (Z.to_nat t). split; [lia|]. apply elem_of_seq. lia.
Qed.

(** The time series of a channel: for a maximum time sample [n] other than
    0 and names that are all given, the validator of the spec and a table
    that holds none of the pairs, [add_lookup] stores the base record and
    then one record per time of [0..n], keyed from the base keys. *)
Lemma add_lookup_expands_time_series (lk bk cn en chn : string) (n : Z) (db : table) :
  0 < n -> cn <> "" -> en <> "" -> chn <> "" ->
  Forall (fun r => ~ (lookup_key r = lk /\ boss_key r = bk)) db ->
  Forall (fun t => Forall (fun r => ~ (lookup_key r = (lk +:+ "&") +:+ str t
                                       /\ boss_key r = (bk +:+ "&") +:+ str t)) db)
         (range (n + 1)) ->
  let base := mkBossLookup lk bk cn (Some en) (Some chn) in
  add_lookup unique_pair_valid lk bk cn (Some en) (Some chn) (Some n) db
  = (Val tt, db ++ base :: (time_record base <$> range (n + 1)))
  /\ length (time_record base <$> range (n + 1)) = Z.to_nat (n + 1).
Proof.
  intros Hn Hcn Hen Hchn Hbase Htimes base. split.
  - unfold add_lookup. fold base. unfold bind at 1. unfold serializer_is_valid at 1.
    assert (Hvalid : unique_pair_valid db base = true)
      by (apply unique_pair_valid_true; exact Hbase).
    rewrite Hvalid. unfold bind at 1. unfold serializer_save at 1.
    assert (Hguard : truthy_str cn && truthy_opt_str (Some en) && truthy_opt_str (Some chn)
                     && truthy_opt_int (Some n) = true).
    { unfold truthy_opt_str, truthy_opt_int, truthy_str.
      rewrite !bool_decide_eq_false_2 by done.
      simpl. apply negb_true_iff, Z.eqb_neq. lia. }
    rewrite Hguard. unfold bind.
    assert (Hfresh : Forall (fun t => Forall (fun r =>
              ~ (lookup_key r = (lk +:+ "&") +:+ str t
                 /\ boss_key r = (bk +:+ "&") +:+ str t)) (db ++ [base])) (range (n + 1))).
    { rewrite Forall_forall in Htimes. apply Forall_forall. intros t Hin.
      apply Forall_app. split; [exact (Htimes t Hin)|].
      constructor; [|constructor]. simpl. intros [Hk _].
      symmetry in Hk. exact (suffixed_key_ne _ _ Hk). }
    destruct (time_loop_unique lk bk (range (n + 1)) base (db ++ [base])
                (NoDup_range _) Hfresh) as (d' & Heq).
    rewrite Heq. unfold ret. rewrite <- app_assoc. reflexivity.
  - rewrite length_fmap. unfold range. rewrite length_fmap. apply length_seq.
Qed.

(** ** Claims on the key space *)

(** C10: every record [add_lookup] creates carries the collection,
    experiment and channel names of the base record of the same call; a
    time-indexed record differs from the base record in its two keys only. *)
Theorem add_lookup_time_records_share_names (is_valid : table -> BossLookup -> bool)
    (lk bk cn : string) (en chn : option string) (mts : option Z) (db : table) :
  Forall (fun r => (collection_name r = cn /\ experiment_name r = en
                    /\ channel_layer_name r = chn)
                   /\ (r = mkBossLookup lk bk cn en chn
                       \/ exists t, r = time_record (mkBossLookup lk bk cn en chn) t))
         (created db (snd (add_lookup is_valid lk bk cn en chn mts db))).
Proof.
  destruct (add_lookup_appends is_valid lk bk cn en chn mts db) as (added & Heq & Hall).
  rewrite Heq. simpl. rewrite created_app.
  eapply Forall_impl; [exact Hall|].
  intros r [-> | (n & t & _ & _ & ->)].
  - split; [done | by left].
  - split; [done | right; by exists t].
Qed.

(** C4: with [max_time_sample = 0] the guard of the time expansion is
    false, so the call creates the base record at most and no record for
    time 0, whatever the validator and the table. *)
Theorem add_lookup_zero_max_time_sample (is_valid : table -> BossLookup -> bool)
    (lk bk cn : string) (en chn : option string) (db : table) :
  created db (snd (add_lookup is_valid lk bk cn en chn (Some 0) db))
  = if is_valid db (mkBossLookup lk bk cn en chn)
    then [mkBossLookup lk bk cn en chn] else [].
Proof.
  unfold add_lookup, bind, serializer_is_valid, serializer_save, ret.
  destruct (is_valid db _); simpl.
  - rewrite !andb_false_r. simpl. apply created_app.
  - unfold created. by rewrite drop_all.
Qed.

(** A channel with names given and [max_time_sample = 0] on an empty table
    gets its base record and no record for time 0. *)
Example single_time_sample_channel_run :
  add_lookup unique_pair_valid "1&2&3" "col1&exp1&channel1" "col1" (Some "exp1")
    (Some "channel1") (Some 0) []
  = (Val tt, [mkBossLookup "1&2&3" "col1&exp1&channel1" "col1" (Some "exp1")
                (Some "channel1")]).
Proof. vm_compute. reflexivity. Qed.

(** C3, as the code has it: when the validator rejects a record whose exact
    key pair is stored, a call for a stored pair returns [None] without
    raising and leaves the table as it was, base mapping included; so does
    the second of two calls with the same arguments. *)
Theorem add_lookup_duplicate_is_silent (is_valid : table -> BossLookup -> bool)
    (lk bk cn : string) (en chn : option string) (mts : option Z) (db : table) :
  (forall db0 d,
      Exists (fun r => lookup_key r = lookup_key d /\ boss_key r = boss_key d) db0 ->
      is_valid db0 d = false) ->
  (Exists (fun r => lookup_key r = lk /\ boss_key r = bk) db ->
   add_lookup is_valid lk bk cn en chn mts db = (Val tt, db))
  /\ add_lookup is_valid lk bk cn en chn mts
       (snd (add_lookup is_valid lk bk cn en chn mts db))
     = (Val tt, snd (add_lookup is_valid lk bk cn en chn mts db)).
Proof.
  intros Hrej.
  assert (Hstored : forall tbl,
             Exists (fun r => lookup_key r = lk /\ boss_key r = bk) tbl ->
             add_lookup is_valid lk bk cn en chn mts tbl = (Val tt, tbl)).
  { intros tbl Hex. unfold add_lookup, bind, serializer_is_valid.
    rewrite (Hrej tbl (mkBossLookup lk bk cn en chn)) by exact Hex. reflexivity. }
  split; [apply Hstored|].
  destruct (is_valid db (mkBossLookup lk bk cn en chn)) eqn:Hvalid.
  - apply Hstored.
    destruct (add_lookup_stores_base is_valid lk bk cn en chn mts db Hvalid) as (rest & ->).
    simpl. apply Exists_app. right. by constructor.
  - assert (Hsame : add_lookup is_valid lk bk cn en chn mts db = (Val tt, db)).
    { unfold add_lookup, bind, serializer_is_valid. rewrite Hvalid. reflexivity. }
    rewrite Hsame. simpl. exact Hsame.
Qed.

Lemma add_lookup_duplicate_is_silent_witness :
  add_lookup unique_pair_valid "1" "col1" "col1" None None None
    [mkBossLookup "1" "col1" "col1" None None]
  = (Val tt, [mkBossLookup "1" "col1" "col1" None None]).
Proof.
  apply (proj1 (add_lookup_duplicate_is_silent unique_pair_valid "1" "col1" "col1"
                  None None None [mkBossLookup "1" "col1" "col1" None None]
                  unique_pair_valid_rejects)).
  constructor. split; reflexivity.
Defined.

(** C3, refuted as stated: the second of two equal calls does not fail; it
    returns [None] like the first. *)
Lemma add_lookup_duplicate_raises_nothing :
  let db1 := snd (add_lookup unique_pair_valid "1" "col1" "col1" None None None []) in
  db1 = [mkBossLookup "1" "col1" "col1" None None]
  /\ fst (add_lookup unique_pair_valid "1" "col1" "col1" None None None db1) = Val tt
  /\ ~ exists e, fst (add_lookup unique_pair_valid "1" "col1" "col1" None None None db1)
                 = Exn e.
Proof.
  vm_compute. split; [reflexivity|]. split; [reflexivity|].
  intros [e He]. discriminate He.
Qed.

Lemma filter_none_iff (bkey : string) (tbl : table) :
  filter (fun r => boss_key r = bkey) tbl = [] <-> Forall (fun r => boss_key r <> bkey) tbl.
Proof.
  induction tbl as [|x tbl IH].
  - split; [constructor | reflexivity].
  - destruct (decide (boss_key x = bkey)) as [Hx | Hx].
    + rewrite filter_cons_True by exact Hx. split; [discriminate|].
      intros Hall. apply Forall_cons in Hall as [Hne _]. contradiction.
    + rewrite filter_cons_False by exact Hx. rewrite IH. split.
      * intros Hall. by constructor.
      * intros Hall. by apply Forall_cons in Hall as [_ Hall].
Qed.

(** When one stored row only carries a boss key, [get] answers with any
    stored row that carries it. *)
Lemma objects_get_unique (tbl : table) (r : BossLookup) :
  r ∈ tbl -> length (filter (fun r' => boss_key r' = boss_key r) tbl) = 1%nat ->
  filter (fun r' => boss_key r' = boss_key r) tbl = [r].
Proof.
  intros Hin Hone.
  assert (Hr : r ∈ filter (fun r' => boss_key r' = boss_key r) tbl)
    by (apply list_elem_of_filter; done).
  destruct (filter _ tbl) as [|x [|y l]]; simpl in Hone; try discriminate Hone.
  apply list_elem_of_singleton in Hr. by subst.
Qed.

(** Several rows carry a boss key exactly when it is held at two positions
    of the table. *)
Lemma several_matches (bkey : string) (tbl : table) :
  (exists x y l, filter (fun r => boss_key r = bkey) tbl = x :: y :: l)
  <-> exists (i j : nat) (r1 r2 : BossLookup),
        (i < j)%nat /\ tbl !! i = Some r1 /\ tbl !! j = Some r2
        /\ boss_key r1 = bkey /\ boss_key r2 = bkey.
Proof.
  split.
  - induction tbl as [|a t IH]; intros (x & y & l & Hf); [discriminate Hf|].
    destruct (decide (boss_key a = bkey)) as [Ha | Ha].
    + rewrite filter_cons_True in Hf by exact Ha. injection Hf as _ Hf.
      assert (Hy : y ∈ filter (fun r => boss_key r = bkey) t) by (rewrite Hf; left).
      apply list_elem_of_filter in Hy as [Hyk Hyt].
      apply list_elem_of_lookup in Hyt as [j Hj].
      exists 0%nat, (S j), a, y. repeat split; [lia | exact Hj | exact Ha | exact Hyk].
    + rewrite filter_cons_False in Hf by exact Ha.
      destruct IH as (i & j & r1 & r2 & Hij & Hi & Hj & H1 & H2); [eauto|].
      exists (S i), (S j), r1, r2. repeat split; [lia | exact Hi | exact Hj | exact H1 | exact H2].
  - induction tbl as [|a t IH]; intros (i & j & r1 & r2 & Hij & Hi & Hj & H1 & H2).
    + rewrite lookup_nil in Hi. discriminate Hi.
    + destruct j as [|j]; [lia|]. destruct i as [|i].
      * simpl in Hi, Hj. injection Hi as ->.
        rewrite filter_cons_True by exact H1.
        assert (Hr2 : r2 ∈ filter (fun r => boss_key r = bkey) t).
        { apply list_elem_of_filter. split; [exact H2|].
          apply list_elem_of_lookup. eauto. }
        destruct (filter _ t) as [|z l']; [by apply elem_of_nil in Hr2|]. eauto.
      * simpl in Hi, Hj.
        destruct IH as (x & y & l & Hf).
        { exists i, j, r1, r2. repeat split; [lia | exact Hi | exact Hj | exact H1 | exact H2]. }
        destruct (decide (boss_key a = bkey)) as [Ha | Ha].
        -- rewrite filter_cons_True by exact Ha. rewrite Hf. eauto.
        -- rewrite filter_cons_False by exact Ha. rewrite Hf. eauto.
Qed.

(** C5, as the code has it: a pair [add_lookup] wrote resolves to its own
    record, with exactly the lookup key written, in every later table in
    which it is the only row under its boss key; [get_lookup_key] answers
    with a stored row whose whole boss key is the one asked for, raises
    [DoesNotExist] exactly when no row has it, and raises
    [MultipleObjectsReturned] exactly when rows at two positions have it,
    as they do once [add_lookup] has stored a pair under a boss key that
    was stored before. *)
Theorem get_lookup_key_after_add_lookup (is_valid : table -> BossLookup -> bool)
    (lk bk cn : string) (en chn : option string) (mts : option Z)
    (db later : table) (r : BossLookup) :
  r ∈ created db (snd (add_lookup is_valid lk bk cn en chn mts db)) ->
  length (filter (fun r' => boss_key r' = boss_key r)
            (snd (add_lookup is_valid lk bk cn en chn mts db) ++ later)) = 1%nat ->
  get_lookup_key (boss_key r) (snd (add_lookup is_valid lk bk cn en chn mts db) ++ later)
  = (Val r, snd (add_lookup is_valid lk bk cn en chn mts db) ++ later)
  /\ (forall tbl bkey r', fst (get_lookup_key bkey tbl) = Val r' ->
                          r' ∈ tbl /\ boss_key r' = bkey)
  /\ (forall tbl bkey, fst (get_lookup_key bkey tbl) = Exn DoesNotExist
                       <-> Forall (fun r' => boss_key r' <> bkey) tbl)
  /\ (forall tbl bkey,
         fst (get_lookup_key bkey tbl) = Exn MultipleObjectsReturned
         <-> exists (i j : nat) (r1 r2 : BossLookup),
               (i < j)%nat /\ tbl !! i = Some r1 /\ tbl !! j = Some r2
               /\ boss_key r1 = bkey /\ boss_key r2 = bkey)
  /\ (forall db0 more,
         is_valid db0 (mkBossLookup lk bk cn en chn) = true ->
         Exists (fun r' => boss_key r' = bk) db0 ->
         fst (get_lookup_key bk (snd (add_lookup is_valid lk bk cn en chn mts db0) ++ more))
         = Exn MultipleObjectsReturned).
Proof.
  intros Hin Hnd.
  assert (Hmulti : forall tbl bkey,
             fst (get_lookup_key bkey tbl) = Exn MultipleObjectsReturned
             <-> exists (i j : nat) (r1 r2 : BossLookup),
                   (i < j)%nat /\ tbl !! i = Some r1 /\ tbl !! j = Some r2
                   /\ boss_key r1 = bkey /\ boss_key r2 = bkey).
  { intros tbl bkey. rewrite <- several_matches.
    unfold get_lookup_key, objects_get, bind, ret.
    destruct (filter _ tbl) as [|x [|y l]]; simpl.
    - split; [discriminate | intros (? & ? & ? & H); discriminate H].
    - split; [discriminate | intros (? & ? & ? & H); discriminate H].
    - split; [eauto | reflexivity]. }
  split; [|split; [|split; [|split]]].
  - destruct (add_lookup_appends is_valid lk bk cn en chn mts db) as (added & Heq & _).
    rewrite Heq in *. simpl in *. rewrite created_app in Hin.
    unfold get_lookup_key, objects_get, bind, ret.
    rewrite objects_get_unique; [reflexivity| |exact Hnd].
    apply elem_of_app. left. apply elem_of_app. by right.
  - intros tbl bkey r'. unfold get_lookup_key, objects_get, bind, ret.
    destruct (filter _ tbl) as [|x [|y l]] eqn:Hf; simpl; intros H; try discriminate H.
    injection H as ->.
    assert (Hx : r' ∈ filter (fun r0 => boss_key r0 = bkey) tbl) by (rewrite Hf; left).
    apply list_elem_of_filter in Hx as [? ?]. done.
  - intros tbl bkey. unfold get_lookup_key, objects_get, bind, ret.
    destruct (filter _ tbl) as [|x [|y l]] eqn:Hf; simpl.
    + split; [intros _|done]. by apply filter_none_iff in Hf.
    + split; [discriminate|]. intros Hall.
      apply filter_none_iff in Hall. rewrite Hall in Hf. discriminate Hf.
    + split; [discriminate|]. intros Hall.
      apply filter_none_iff in Hall. rewrite Hall in Hf. discriminate Hf.
  - exact Hmulti.
  - intros db0 more Hvalid Hex. apply Hmulti.
    destruct (add_lookup_stores_base is_valid lk bk cn en chn mts db0 Hvalid) as (rest & ->).
    simpl. apply Exists_exists in Hex as (r0 & Hr0 & Hk).
    apply list_elem_of_lookup in Hr0 as [i Hi].
    exists i, (length db0), r0, (mkBossLookup lk bk cn en chn).
    split; [by apply lookup_lt_Some in Hi|].
    split; [rewrite <- app_assoc; by apply lookup_app_l_Some|].
    split; [|split; [exact Hk | reflexivity]].
    rewrite <- app_assoc. rewrite lookup_app_r by lia.
    by rewrite Nat.sub_diag.
Qed.

Lemma get_lookup_key_after_add_lookup_witness :
  let db' := snd (add_lookup unique_pair_valid "1&2&3" "col1&exp1&channel1" "col1"
                    (Some "exp1") (Some "channel1") (Some 2) [])
             ++ [mkBossLookup "7" "col2" "col2" None None] in
  get_lookup_key "col1&exp1&channel1&1" db'
  = (Val (mkBossLookup "1&2&3&1" "col1&exp1&channel1&1" "col1" (Some "exp1")
            (Some "channel1")), db').
Proof.
  refine (proj1 (get_lookup_key_after_add_lookup unique_pair_valid
                   "1&2&3" "col1&exp1&channel1" "col1" (Some "exp1") (Some "channel1")
                   (Some 2) [] [mkBossLookup "7" "col2" "col2" None None]
                   (mkBossLookup "1&2&3&1" "col1&exp1&channel1&1" "col1" (Some "exp1")
                      (Some "channel1")) _ _)).
  - apply (bool_decide_unpack _). vm_compute. exact I.
  - vm_compute. reflexivity.
Defined.

(** C5, refuted as stated: two pairs written under one boss key, which the
    validator of exact pairs lets through, and [get_lookup_key] answers
    neither of them; it raises [MultipleObjectsReturned]. *)
Lemma get_lookup_key_ambiguous_boss_key :
  let db1 := snd (add_lookup unique_pair_valid "1" "col1" "col1" None None None []) in
  let db2 := snd (add_lookup unique_pair_valid "2" "col1" "col1" None None None db1) in
  created [] db1 = [mkBossLookup "1" "col1" "col1" None None]
  /\ created db1 db2 = [mkBossLookup "2" "col1" "col1" None None]
  /\ get_lookup_key "col1" db2 = (Exn MultipleObjectsReturned, db2)
  /\ ~ exists r, fst (get_lookup_key "col1" db2) = Val r.
Proof.
  vm_compute. repeat split. intros [r Hr]. discriminate Hr.
Qed.

(** * Properties of the cutout parsers *)

Import Codec.

(** ** The size check *)

(** A whole number of fewer than 54 bits is a double. *)
Lemma round_double_exact (n : Z) : Z.abs n < 2 ^ 53 -> round_double n = n.
Proof.
  intros H. unfold round_double.
  destruct (Z.leb_spec (Z.log2 (Z.abs n) - 52) 0) as [_ | He]; [reflexivity|].
  exfalso. assert (Z.log2 (Z.abs n) < 53); [|lia].
  destruct (Z.eq_dec (Z.abs n) 0) as [-> | Hn]; [simpl; lia|].
  apply Z.log2_lt_pow2; lia.
Qed.

(** Rounding a larger number keeps its sign, stays at 2^53 or above in
    absolute value and at most doubles it. *)
Lemma round_double_big (n : Z) :
  2 ^ 53 <= Z.abs n ->
  2 ^ 53 <= Z.abs (round_double n) <= 2 * Z.abs n
  /\ Z.sgn (round_double n) = Z.sgn n.
Proof.
  intros H. unfold round_double.
  set (a := Z.abs n) in *. set (L := Z.log2 a).
  assert (Ha : 0 < a) by lia.
  assert (HL : 53 <= L) by (apply Z.log2_le_pow2; lia).
  destruct (Z.log2_spec a Ha) as [Hlo Hhi]. fold L in Hlo, Hhi.
  destruct (Z.leb_spec (L - 52) 0) as [He | He]; [lia|].
  set (e := L - 52) in *.
  assert (Hp : 0 < 2 ^ e) by (apply Z.pow_pos_nonneg; lia).
  assert (HLe : 2 ^ L = 2 ^ 52 * 2 ^ e).
  { rewrite <- Z.pow_add_r by lia. f_equal. lia. }
  assert (HL1 : 2 ^ Z.succ L = 2 ^ 53 * 2 ^ e).
  { rewrite <- Z.pow_add_r by lia. f_equal. lia. }
  assert (Hq : 2 ^ 52 <= a / 2 ^ e < 2 ^ 53).
  { split.
    - apply Z.div_le_lower_bound; lia.
    - apply Z.div_lt_upper_bound; lia. }
  set (q := a / 2 ^ e) in *.
  set (q' := if a mod 2 ^ e <? 2 ^ (e - 1) then q
             else if 2 ^ (e - 1) <? a mod 2 ^ e then q + 1
                  else if Z.even q then q else q + 1).
  assert (Hq' : q <= q' <= q + 1).
  { unfold q'. repeat match goal with |- context [if ?b then _ else _] => destruct b end; lia. }
  assert (Hpos : 0 < q' * 2 ^ e) by nia.
  assert (H53 : 2 ^ 53 <= 2 ^ L) by (apply Z.pow_le_mono_r; lia).
  destruct (Z.sgn_spec n) as [[Hn Hs] | [[Hn Hs] | [Hn Hs]]]; rewrite Hs.
  - split; [|rewrite Z.sgn_pos_iff; lia]. rewrite Z.abs_eq by lia. nia.
  - subst n. simpl in a. lia.
  - split; [|rewrite Z.sgn_neg_iff; lia].
    replace (-1 * (q' * 2 ^ e)) with (- (q' * 2 ^ e)) by lia.
    rewrite Z.abs_opp, Z.abs_eq by lia. nia.
Qed.

(** Below 2^1026 in absolute value the quotient by 8 is a double: the
    division does not raise. *)
Lemma int_true_div_8_Val (n : Z) :
  Z.abs n < 2 ^ 1026 ->
  int_true_div_8 n = Val (inject_Z (round_double n) / inject_Z 8)%Q.
Proof.
  intros Hn. unfold int_true_div_8.
  assert (H1027 : 2 ^ 1027 = 2 * 2 ^ 1026) by (rewrite <- Z.pow_succ_r; [reflexivity | lia]).
  assert (H53 : 2 ^ 53 < 2 ^ 1026) by (apply Z.pow_lt_mono_r; lia).
  assert (Hm : Z.abs (round_double n) < 2 ^ 1027).
  { destruct (Z.lt_ge_cases (Z.abs n) (2 ^ 53)) as [Hsmall | Hbig].
    - rewrite round_double_exact by exact Hsmall. lia.
    - destruct (round_double_big n Hbig) as [[_ Hle] _]. lia. }
  apply Z.leb_gt in Hm. rewrite Hm. reflexivity.
Qed.

(** [is_too_large] in whole numbers, where the double does not get in the
    way: for a ceiling below 2^48 in absolute value and a volume in bits
    below 2^1026, it returns, and compares the volume in bits with eight
    times the ceiling, thirty-two times at 64 bits. *)
Lemma is_too_large_spec (max : Z) (req : BossRequest) (bit_depth : Z) :
  - 2 ^ 48 <= max < 2 ^ 48 ->
  Z.abs (x_span req * y_span req * z_span req * (time_stop req - time_start req)
         * bit_depth) < 2 ^ 1026 ->
  is_too_large max req bit_depth
  = Val (8 * max * (if bit_depth =? 64 then 4 else 1)
         <? x_span req * y_span req * z_span req * (time_stop req - time_start req)
            * bit_depth).
Proof.
  intros Hmax Hn. unfold is_too_large.
  set (n := x_span req * y_span req * z_span req * (time_stop req - time_start req)
            * bit_depth) in *.
  rewrite (int_true_div_8_Val n Hn). clear Hn. f_equal.
  assert (Hm : (Z.abs n < 2 ^ 53 /\ round_double n = n)
               \/ (2 ^ 53 <= n /\ 2 ^ 53 <= round_double n)
               \/ (n <= - 2 ^ 53 /\ round_double n <= - 2 ^ 53)).
  { destruct (Z.lt_ge_cases (Z.abs n) (2 ^ 53)) as [Hsmall | Hbig].
    - left. split; [exact Hsmall | by apply round_double_exact].
    - destruct (round_double_big n Hbig) as [[Hlo _] Hsgn]. right.
      destruct (Z.sgn_spec n) as [[Hpos Hs] | [[Hz Hs] | [Hneg Hs]]]; rewrite Hs in Hsgn.
      + left. apply Z.sgn_pos_iff in Hsgn. lia.
      + subst n. lia.
      + right. apply Z.sgn_neg_iff in Hsgn. lia. }
  set (m := round_double n) in *. clearbody m.
  assert (H48 : 2 ^ 48 = 281474976710656) by reflexivity.
  assert (H53 : 2 ^ 53 = 9007199254740992) by reflexivity.
  rewrite H48 in Hmax. rewrite H53 in Hm. clear H48 H53.
  destruct (bit_depth =? 64);
    match goal with |- context [Qlt_le_dec ?a ?b] => destruct (Qlt_le_dec a b) as [H | H] end;
    unfold Qlt, Qle, Qdiv, Qmult, Qinv, inject_Z in H; simpl in H;
    symmetry; [apply Z.ltb_lt | apply Z.ltb_ge | apply Z.ltb_lt | apply Z.ltb_ge]; lia.
Qed.

(** ** The steps shared by the parsers *)

Lemma process_request_ok (ctx : parser_context) (req : BossRequest) (w : world) :
  build_request ctx = Val req -> process_request ctx w = (Val (inr req), w).
Proof. intros H. unfold process_request, try_except, bind, lift, ret. by rewrite H. Qed.

Lemma bit_depth_ok (consume : bool) (resource : BossResource) (bit_depth : Z) (w : world) :
  get_bit_depth resource = Val bit_depth ->
  bit_depth_or_error consume resource w = (Val (inr bit_depth), w).
Proof. intros H. unfold bit_depth_or_error, try_except, bind, lift, ret. by rewrite H. Qed.

(** [consume_request] never raises, logs one read and no decompression. *)
Lemma consume_request_spec (w : world) :
  exists w', consume_request w = (Val tt, w') /\ log w' = log w ++ [EvStreamRead].
Proof.
  unfold consume_request, try_except, stream_read, bind, record_event, ret. simpl.
  destruct (read_raises w); eexists; split; reflexivity.
Qed.

(** Unfolding a run of [parse] and its steps. *)
Ltac unfold_parse :=
  unfold parse, BloscParser_parse, BloscPythonParser_parse, NpygzParser_parse,
    process_request, bit_depth_or_error, unpack_handlers, consume_request, stream_read,
    call_blosc_decompress, call_blosc_unpack_array, call_zlib_decompress, call_np_load,
    record_event, try_except, bind, lift, ret.

(** The run of a parser up to the size check. *)
Ltac run_to_size_check Hreq Hres Hbits Hsize :=
  unfold_parse; rewrite Hreq; simpl; rewrite Hres; simpl; rewrite Hbits; simpl;
  rewrite Hsize; simpl.

(** ** Claims on the parsers *)




(** C2, as the code has it: when the request is valid, the resource is
    built and its bit depth known, the ceiling is below 2^48 in absolute
    value, the volume in bits below 2^1026, and the byte volume, divided by
    4 at 64 bits, is above the ceiling, each parser returns the too-large
    error whatever the payload and the decompressors do, and calls no
    decompressor on the way. *)
Theorem too_large_rejected_before_decompression (max : Z)
    (blosc_decompress : bytes -> pyresult bytes)
    (blosc_unpack_array : bytes -> pyresult ndarray)
    (zlib_decompress : bytes -> pyresult bytes) (np_load : bytes -> pyresult ndarray)
    (p : parser) (ctx : parser_context) (w : world) (req : BossRequest)
    (resource : BossResource) (bit_depth : Z) :
  build_request ctx = Val req ->
  build_resource ctx req = Val resource ->
  get_bit_depth resource = Val bit_depth ->
  - 2 ^ 48 <= max < 2 ^ 48 ->
  Z.abs (x_span req * y_span req * z_span req * (time_stop req - time_start req)
         * bit_depth) < 2 ^ 1026 ->
  8 * max * (if bit_depth =? 64 then 4 else 1)
  < x_span req * y_span req * z_span req * (time_stop req - time_start req) * bit_depth ->
  exists (w' : world) (evs : list event),
    parse max blosc_decompress blosc_unpack_array zlib_decompress np_load p ctx w
    = (Val (BossParserError too_large_message REQUEST_TOO_LARGE), w')
    /\ log w' = log w ++ evs
    /\ Forall (fun ev => decompression_event ev = false) evs.
Proof.
  intros Hreq Hres Hbits Hmax Hn Hvol.
  assert (Hsize : is_too_large max req bit_depth = Val true).
  { rewrite (is_too_large_spec max req bit_depth Hmax Hn). f_equal. by apply Z.ltb_lt. }
  destruct p.
  - exists w, []. run_to_size_check Hreq Hres Hbits Hsize.
    split; [reflexivity|]. split; [by rewrite app_nil_r | constructor].
  - run_to_size_check Hreq Hres Hbits Hsize.
    destruct (read_raises w); eexists; exists [EvStreamRead];
      (split; [reflexivity|]); (split; [reflexivity|]); by repeat constructor.
  - run_to_size_check Hreq Hres Hbits Hsize.
    destruct (read_raises w); eexists; exists [EvStreamRead];
      (split; [reflexivity|]); (split; [reflexivity|]); by repeat constructor.
Qed.

Lemma too_large_rejected_before_decompression_witness :
  exists (w' : world) (evs : list event),
    parse Samples.max_size Samples.blosc_corrupt Samples.unpack_corrupt Samples.zlib_corrupt
      Samples.load_row_of_five NpygzParser Samples.huge_image_context
      (fresh_stream Samples.payload)
    = (Val (BossParserError too_large_message REQUEST_TOO_LARGE), w')
    /\ log w' = log (fresh_stream Samples.payload) ++ evs
    /\ Forall (fun ev => decompression_event ev = false) evs.
Proof.
  apply (too_large_rejected_before_decompression Samples.max_size Samples.blosc_corrupt
           Samples.unpack_corrupt Samples.zlib_corrupt Samples.load_row_of_five NpygzParser
           Samples.huge_image_context (fresh_stream Samples.payload)
           Samples.huge_image_request Samples.image_resource 8).
  - reflexivity.
  - reflexivity.
  - reflexivity.
  - split; [apply Z.leb_le | apply Z.ltb_lt]; vm_compute; reflexivity.
  - apply Z.ltb_lt. vm_compute. reflexivity.
  - vm_compute. reflexivity.
Defined.

(** C2, refuted as stated: 512 x 512 x 256 voxels of 64 bits are 536870912
    bytes, above the ceiling of 520000000, yet the request passes the size
    check, the corrupt payload is handed to the decompressor and the answer
    is the error of a payload that does not decompress. *)
Lemma relaxed_annotation_request_is_decompressed :
  Samples.max_size
  < x_span Samples.large_annotation_request * y_span Samples.large_annotation_request
    * z_span Samples.large_annotation_request
    * (time_stop Samples.large_annotation_request
       - time_start Samples.large_annotation_request) * 64 / 8
  /\ BloscParser_parse Samples.max_size Samples.blosc_corrupt
       Samples.large_annotation_context (fresh_stream Samples.payload)
     = (Val (BossParserError decompress_failed_message DATATYPE_DOES_NOT_MATCH),
        mkWorld [] None [EvStreamRead; EvBloscDecompress]).
Proof. split; [vm_compute; reflexivity | vm_compute; reflexivity]. Qed.

(** ** Draining the stream *)

(** C1, evaluated on [BloscParser]: a request over the ceiling, and a
    resource of an unsupported data type, are answered with the error while
    the stream is as it was: no byte read, no read attempted. *)
Theorem BloscParser_returns_without_draining :
  BloscParser_parse Samples.max_size Samples.blosc_ok Samples.huge_image_context
    (fresh_stream Samples.payload)
  = (Val (BossParserError too_large_message REQUEST_TOO_LARGE), fresh_stream Samples.payload)
  /\ BloscParser_parse Samples.max_size Samples.blosc_ok Samples.float_context
       (fresh_stream Samples.payload)
     = (Val (BossParserError (unsupported_type_message Samples.float_resource) TYPE_ERROR),
        fresh_stream Samples.payload)
  /\ unread (fresh_stream Samples.payload) = Samples.payload
  /\ log (fresh_stream Samples.payload) = [].
Proof. repeat split; vm_compute; reflexivity. Qed.

(** The two other parsers consume the stream on the same two requests. *)
Lemma sibling_parsers_drain :
  BloscPythonParser_parse Samples.max_size Samples.unpack_corrupt Samples.huge_image_context
    (fresh_stream Samples.payload)
  = (Val (BossParserError too_large_message REQUEST_TOO_LARGE), mkWorld [] None [EvStreamRead])
  /\ NpygzParser_parse Samples.max_size Samples.zlib_corrupt Samples.load_row_of_five
       Samples.float_context (fresh_stream Samples.payload)
     = (Val (BossParserError (unsupported_type_message Samples.float_resource) TYPE_ERROR),
        mkWorld [] None [EvStreamRead]).
Proof. split; vm_compute; reflexivity. Qed.

(** ** Payloads that do not decompress *)

(** C7, evaluated on [NpygzParser] and [BloscPythonParser]: the exception of
    a corrupt payload is neither [MemoryError] nor [EOFError], no handler
    takes it, and it leaves [parse]. *)
Theorem self_describing_parsers_let_corrupt_payload_raise :
  NpygzParser_parse Samples.max_size Samples.zlib_corrupt Samples.load_row_of_five
    Samples.small_image_context (fresh_stream Samples.payload)
  = (Exn (OtherException "zlib.error"
            "Error -3 while decompressing data: incorrect header check"),
     mkWorld [] None [EvStreamRead; EvZlibDecompress])
  /\ BloscPythonParser_parse Samples.max_size Samples.unpack_corrupt
       Samples.small_image_context (fresh_stream Samples.payload)
     = (Exn (OtherException "blosc_extension.error" "Error -1 while decompressing data"),
        mkWorld [] None [EvStreamRead; EvBloscUnpackArray]).
Proof. split; vm_compute; reflexivity. Qed.

(** [BloscParser] takes every exception of its decompression step: any but
    [MemoryError] becomes the error of a payload that does not match. *)
Lemma BloscParser_reports_corrupt_payload (max : Z)
    (blosc_decompress : bytes -> pyresult bytes) (ctx : parser_context) (w : world)
    (req : BossRequest) (resource : BossResource) (bit_depth : Z) (e : pyexn) :
  build_request ctx = Val req ->
  build_resource ctx req = Val resource ->
  get_bit_depth resource = Val bit_depth ->
  is_too_large max req bit_depth = Val false ->
  read_raises w = None ->
  blosc_decompress (unread w) = Exn e ->
  (forall m, e <> MemoryError m) ->
  fst (BloscParser_parse max blosc_decompress ctx w)
  = Val (BossParserError decompress_failed_message DATATYPE_DOES_NOT_MATCH).
Proof.
  intros Hreq Hres Hbits Hsmall Hread Hdec Hmem.
  run_to_size_check Hreq Hres Hbits Hsmall. rewrite Hread. simpl. rewrite Hdec.
  destruct e; try reflexivity. exfalso. by eapply Hmem.
Qed.

(** ** Self-describing payloads *)

(** C8, as the code has it: on a valid request under the ceiling, the array
    that [blosc.unpack_array], or [zlib.decompress] and [np.load], read from
    the payload is returned as it is, with the request and the resource;
    [parse] compares neither its shape nor its element type with them. *)
Theorem self_describing_array_returned_unchecked (max : Z)
    (blosc_unpack_array : bytes -> pyresult ndarray)
    (zlib_decompress : bytes -> pyresult bytes) (np_load : bytes -> pyresult ndarray)
    (ctx : parser_context) (w : world) (req : BossRequest) (resource : BossResource)
    (bit_depth : Z) (data_bytes : bytes) (a b : ndarray) :
  build_request ctx = Val req ->
  build_resource ctx req = Val resource ->
  get_bit_depth resource = Val bit_depth ->
  is_too_large max req bit_depth = Val false ->
  read_raises w = None ->
  blosc_unpack_array (unread w) = Val a ->
  zlib_decompress (unread w) = Val data_bytes ->
  np_load data_bytes = Val b ->
  fst (BloscPythonParser_parse max blosc_unpack_array ctx w)
  = Val (Parsed req resource a)
  /\ fst (NpygzParser_parse max zlib_decompress np_load ctx w)
     = Val (Parsed req resource b).
Proof.
  intros Hreq Hres Hbits Hsmall Hread Ha Hz Hb. split.
  - run_to_size_check Hreq Hres Hbits Hsmall. rewrite Hread. simpl. rewrite Ha. reflexivity.
  - run_to_size_check Hreq Hres Hbits Hsmall. rewrite Hread. simpl. rewrite Hz. simpl.
    rewrite Hb. reflexivity.
Qed.

Lemma self_describing_array_returned_unchecked_witness :
  fst (BloscPythonParser_parse Samples.max_size Samples.unpack_row_of_five
         Samples.small_image_context (fresh_stream Samples.payload))
  = Val (Parsed Samples.small_request Samples.image_resource Samples.row_of_five)
  /\ fst (NpygzParser_parse Samples.max_size Samples.zlib_ok Samples.load_row_of_five
            Samples.small_image_context (fresh_stream Samples.payload))
     = Val (Parsed Samples.small_request Samples.image_resource Samples.row_of_five).
Proof.
  apply (self_describing_array_returned_unchecked Samples.max_size
           Samples.unpack_row_of_five Samples.zlib_ok Samples.load_row_of_five
           Samples.small_image_context (fresh_stream Samples.payload)
           Samples.small_request Samples.image_resource 8 Samples.payload
           Samples.row_of_five Samples.row_of_five);
    reflexivity.
Defined.

(** C8, refuted as stated: the request is for 2 x 2 x 1 voxels of 8 bits,
    the payload holds one row of five 16-bit values, and [parse] returns
    that row. *)
Lemma mismatching_array_is_returned :
  fst (BloscPythonParser_parse Samples.max_size Samples.unpack_row_of_five
         Samples.small_image_context (fresh_stream Samples.payload))
  = Val (Parsed Samples.small_request Samples.image_resource Samples.row_of_five)
  /\ shape Samples.row_of_five
     <> [z_span Samples.small_request; y_span Samples.small_request;
         x_span Samples.small_request]
  /\ arr_dtype Samples.row_of_five <> get_numpy_data_type Samples.image_resource.
Proof.
  split; [vm_compute; reflexivity|]. split; intros H; discriminate H.
Qed.

(** ** Reshaping *)







(** * Further properties of the cutout parsers *)

(** ** Case analysis of a run of [parse] *)

Ltac case_step :=
  match goal with
  | |- context [match build_request ?c with _ => _ end] =>
      let E := fresh "Ereq" in destruct (build_request c) eqn:E
  | |- context [match build_resource ?c ?r with _ => _ end] =>
      let E := fresh "Eres" in destruct (build_resource c r) eqn:E
  | |- context [match get_bit_depth ?r with _ => _ end] =>
      let E := fresh "Ebits" in destruct (get_bit_depth r) eqn:E
  | |- context [match is_too_large ?m ?r ?b with _ => _ end] =>
      let E := fresh "Esize" in destruct (is_too_large m r b) as [[|]|] eqn:E
  | |- context [match read_raises ?w with _ => _ end] =>
      let E := fresh "Eread" in destruct (read_raises w) eqn:E
  | |- context [match np_fromstring ?b ?d with _ => _ end] =>
      let E := fresh "Efrom" in destruct (np_fromstring b d) eqn:E
  | |- context [match np_reshape ?a ?d with _ => _ end] =>
      let E := fresh "Eshape" in destruct (np_reshape a d) eqn:E
  | |- context [if time_request ?r then _ else _] =>
      let E := fresh "Etime" in destruct (time_request r) eqn:E
  | |- context [match ?f (unread ?w) with _ => _ end] =>
      let E := fresh "Edec" in destruct (f (unread w)) eqn:E
  | |- context [match ?f ?b with _ => _ end] =>
      is_var f; is_var b; let E := fresh "Eload" in destruct (f b) eqn:E
  | |- context [match ?e with BossError _ _ => _ | _ => _ end] =>
      is_var e; destruct e
  | |- context [is_Exception ?e] => is_var e; destruct e
  end.

Ltac crush_parse := unfold_parse; repeat (simpl; case_step); simpl.


(** ** The request stage *)

(** A [BossError] of the request validation comes back as the error value
    with the same message and code, from every parser, and the stream is
    then in the state [consume_request] leaves it in. *)
Theorem validation_error_returned_after_consuming (max : Z)
    (blosc_decompress : bytes -> pyresult bytes)
    (blosc_unpack_array : bytes -> pyresult ndarray)
    (zlib_decompress : bytes -> pyresult bytes) (np_load : bytes -> pyresult ndarray)
    (p : parser) (ctx : parser_context) (w : world) (message : string)
    (error_code : ErrorCodes) :
  build_request ctx = Exn (BossError message error_code) ->
  parse max blosc_decompress blosc_unpack_array zlib_decompress np_load p ctx w
  = (Val (BossParserError message error_code), snd (consume_request w))
  /\ fst (consume_request w) = Val tt.
Proof.
  intros H. destruct p; unfold_parse; rewrite H; simpl;
    destruct (read_raises w); split; reflexivity.
Qed.

Lemma validation_error_returned_after_consuming_witness :
  parse Samples.max_size Samples.blosc_ok Samples.unpack_row_of_five Samples.zlib_ok
    Samples.load_row_of_five BloscParser Samples.out_of_bounds_context
    (fresh_stream Samples.payload)
  = (Val (BossParserError "Invalid extent requested" (OTHER_ERROR_CODE 4002)),
     snd (consume_request (fresh_stream Samples.payload)))
  /\ fst (consume_request (fresh_stream Samples.payload)) = Val tt.
Proof.
  apply (validation_error_returned_after_consuming Samples.max_size Samples.blosc_ok
           Samples.unpack_row_of_five Samples.zlib_ok Samples.load_row_of_five BloscParser
           Samples.out_of_bounds_context (fresh_stream Samples.payload)
           "Invalid extent requested" (OTHER_ERROR_CODE 4002)).
  reflexivity.
Defined.

(** Any other [Exception] raised while the request is built comes back as
    an unhandled-exception error that carries [str(err)], after the stream
    was consumed; an exception that is no [Exception] goes on to the caller
    and the stream is not touched. *)
Theorem unexpected_request_exception_reported (max : Z)
    (blosc_decompress : bytes -> pyresult bytes)
    (blosc_unpack_array : bytes -> pyresult ndarray)
    (zlib_decompress : bytes -> pyresult bytes) (np_load : bytes -> pyresult ndarray)
    (p : parser) (ctx : parser_context) (w : world) (err : pyexn) :
  build_request ctx = Exn err ->
  match err with BossError _ _ => False | _ => True end ->
  parse max blosc_decompress blosc_unpack_array zlib_decompress np_load p ctx w
  = if is_Exception err
    then (Val (BossParserError (exn_str err) UNHANDLED_EXCEPTION), snd (consume_request w))
    else (Exn err, w).
Proof.
  intros H Hnot. destruct p; unfold_parse; rewrite H; simpl;
    destruct err; try contradiction; simpl; destruct (read_raises w); reflexivity.
Qed.

Lemma unexpected_request_exception_reported_witness :
  parse Samples.max_size Samples.blosc_ok Samples.unpack_row_of_five Samples.zlib_ok
    Samples.load_row_of_five NpygzParser Samples.missing_argument_context
    (fresh_stream Samples.payload)
  = (Val (BossParserError "'x_range'" UNHANDLED_EXCEPTION), mkWorld [] None [EvStreamRead]).
Proof.
  apply (unexpected_request_exception_reported Samples.max_size Samples.blosc_ok
           Samples.unpack_row_of_five Samples.zlib_ok Samples.load_row_of_five NpygzParser
           Samples.missing_argument_context (fresh_stream Samples.payload)
           (OtherException "KeyError" "'x_range'")).
  - reflexivity.
  - exact I.
Defined.

(** ** The stream *)

(** [consume_request] never raises and makes one read; a stream that can be
    read is empty afterwards, one whose read fails keeps its bytes. *)
Theorem consume_request_never_raises (w : world) :
  fst (consume_request w) = Val tt
  /\ log (snd (consume_request w)) = log w ++ [EvStreamRead]
  /\ unread (snd (consume_request w))
     = match read_raises w with None => [] | Some _ => unread w end.
Proof.
  unfold consume_request, try_except, stream_read, bind, record_event, ret. simpl.
  destruct (read_raises w); repeat split.
Qed.

(** [BloscPythonParser] and [NpygzParser] never return, error or array,
    without a read of the stream made first; a stream that can be read is
    empty when they return. *)
Theorem self_describing_parsers_read_before_returning (max : Z)
    (blosc_decompress : bytes -> pyresult bytes)
    (blosc_unpack_array : bytes -> pyresult ndarray)
    (zlib_decompress : bytes -> pyresult bytes) (np_load : bytes -> pyresult ndarray)
    (p : parser) (ctx : parser_context) (w w' : world) (r : parse_result) :
  p <> BloscParser ->
  parse max blosc_decompress blosc_unpack_array zlib_decompress np_load p ctx w
  = (Val r, w') ->
  (exists evs, log w' = log w ++ EvStreamRead :: evs)
  /\ unread w' = match read_raises w with None => [] | Some _ => unread w end.
Proof.
  intros Hp. destruct p; [contradiction| |]; crush_parse; intros H;
    try discriminate H; try congruence; injection H as <- <-; simpl;
    (split; [eexists; try reflexivity; rewrite <- ?app_assoc; reflexivity | reflexivity]).
Qed.

Lemma self_describing_parsers_read_before_returning_witness :
  (exists evs, log (mkWorld [] None [EvStreamRead]) = [] ++ EvStreamRead :: evs)
  /\ unread (mkWorld [] None [EvStreamRead]) = [].
Proof.
  apply (self_describing_parsers_read_before_returning Samples.max_size Samples.blosc_ok
           Samples.unpack_corrupt Samples.zlib_ok Samples.load_row_of_five
           BloscPythonParser Samples.huge_image_context (fresh_stream Samples.payload)
           (mkWorld [] None [EvStreamRead])
           (BossParserError too_large_message REQUEST_TOO_LARGE)).
  - discriminate.
  - vm_compute. reflexivity.
Defined.

(** A parser that returns an array has read the whole body, on a request
    that was valid, for a resource of a known bit depth, under the ceiling. *)
Theorem parsed_array_means_body_consumed (max : Z)
    (blosc_decompress : bytes -> pyresult bytes)
    (blosc_unpack_array : bytes -> pyresult ndarray)
    (zlib_decompress : bytes -> pyresult bytes) (np_load : bytes -> pyresult ndarray)
    (p : parser) (ctx : parser_context) (w w' : world) (req : BossRequest)
    (res : BossResource) (arr : ndarray) :
  parse max blosc_decompress blosc_unpack_array zlib_decompress np_load p ctx w
  = (Val (Parsed req res arr), w') ->
  unread w' = [] /\ read_raises w = None
  /\ build_request ctx = Val req /\ build_resource ctx req = Val res
  /\ exists bit_depth, get_bit_depth res = Val bit_depth
                       /\ is_too_large max req bit_depth = Val false.
Proof.
  destruct p; crush_parse; intros H; try discriminate H; try congruence.
  all: injection H as <- <- <- <-; simpl; eauto 10.
Qed.

Lemma parsed_array_means_body_consumed_witness :
  unread (mkWorld [] None [EvStreamRead; EvBloscUnpackArray]) = []
  /\ read_raises (fresh_stream Samples.payload) = None
  /\ build_request Samples.small_image_context = Val Samples.small_request
  /\ build_resource Samples.small_image_context Samples.small_request
     = Val Samples.image_resource
  /\ exists bit_depth, get_bit_depth Samples.image_resource = Val bit_depth
       /\ is_too_large Samples.max_size Samples.small_request bit_depth = Val false.
Proof.
  apply (parsed_array_means_body_consumed Samples.max_size Samples.blosc_ok
           Samples.unpack_row_of_five Samples.zlib_ok Samples.load_row_of_five
           BloscPythonParser Samples.small_image_context (fresh_stream Samples.payload)
           (mkWorld [] None [EvStreamRead; EvBloscUnpackArray])
           Samples.small_request Samples.image_resource Samples.row_of_five).
  vm_compute. reflexivity.
Defined.

(** ** The decompression stage *)

(** A [MemoryError] of the decompressor or array reader is reported by every
    parser as the system error, not raised. *)
Theorem out_of_memory_is_reported (max : Z)
    (blosc_decompress : bytes -> pyresult bytes)
    (blosc_unpack_array : bytes -> pyresult ndarray)
    (zlib_decompress : bytes -> pyresult bytes) (np_load : bytes -> pyresult ndarray)
    (p : parser) (ctx : parser_context) (w : world) (req : BossRequest)
    (resource : BossResource) (bit_depth : Z) (message : string) :
  build_request ctx = Val req ->
  build_resource ctx req = Val resource ->
  get_bit_depth resource = Val bit_depth ->
  is_too_large max req bit_depth = Val false ->
  read_raises w = None ->
  match p with
  | BloscParser => blosc_decompress (unread w) = Exn (MemoryError message)
  | BloscPythonParser => blosc_unpack_array (unread w) = Exn (MemoryError message)
  | NpygzParser =>
      zlib_decompress (unread w) = Exn (MemoryError message)
      \/ exists data_bytes, zlib_decompress (unread w) = Val data_bytes
                            /\ np_load data_bytes = Exn (MemoryError message)
  end ->
  fst (parse max blosc_decompress blosc_unpack_array zlib_decompress np_load p ctx w)
  = Val (BossParserError out_of_memory_message BOSS_SYSTEM_ERROR).
Proof.
  intros Hreq Hres Hbits Hsmall Hread Hmem.
  destruct p; [| |destruct Hmem as [Hmem | (data_bytes & Hz & Hmem)]];
    run_to_size_check Hreq Hres Hbits Hsmall; rewrite Hread; simpl.
  - rewrite Hmem. reflexivity.
  - rewrite Hmem. reflexivity.
  - rewrite Hmem. reflexivity.
  - rewrite Hz. simpl. rewrite Hmem. reflexivity.
Qed.

Lemma out_of_memory_is_reported_witness :
  fst (parse Samples.max_size Samples.blosc_out_of_memory Samples.unpack_row_of_five
         Samples.zlib_ok Samples.load_row_of_five BloscParser Samples.small_image_context
         (fresh_stream Samples.payload))
  = Val (BossParserError out_of_memory_message BOSS_SYSTEM_ERROR).
Proof.
  apply (out_of_memory_is_reported Samples.max_size Samples.blosc_out_of_memory
           Samples.unpack_row_of_five Samples.zlib_ok Samples.load_row_of_five BloscParser
           Samples.small_image_context (fresh_stream Samples.payload)
           Samples.small_request Samples.image_resource 8 ""); reflexivity.
Defined.

(** An [EOFError] of the array reader is reported by the two
    self-describing parsers as a dimension mismatch. *)
Theorem truncated_payload_reported_as_dimension_mismatch (max : Z)
    (blosc_unpack_array : bytes -> pyresult ndarray)
    (zlib_decompress : bytes -> pyresult bytes) (np_load : bytes -> pyresult ndarray)
    (ctx : parser_context) (w : world) (req : BossRequest) (resource : BossResource)
    (bit_depth : Z) (message : string) (data_bytes : bytes) :
  build_request ctx = Val req ->
  build_resource ctx req = Val resource ->
  get_bit_depth resource = Val bit_depth ->
  is_too_large max req bit_depth = Val false ->
  read_raises w = None ->
  blosc_unpack_array (unread w) = Exn (EOFError message) ->
  zlib_decompress (unread w) = Val data_bytes ->
  np_load data_bytes = Exn (EOFError message) ->
  fst (BloscPythonParser_parse max blosc_unpack_array ctx w)
  = Val (BossParserError unpack_failed_message DATA_DIMENSION_MISMATCH)
  /\ fst (NpygzParser_parse max zlib_decompress np_load ctx w)
     = Val (BossParserError unpack_failed_message DATA_DIMENSION_MISMATCH).
Proof.
  intros Hreq Hres Hbits Hsmall Hread Hu Hz Hl.
  split; run_to_size_check Hreq Hres Hbits Hsmall; rewrite Hread; simpl.
  - rewrite Hu. reflexivity.
  - rewrite Hz. simpl. rewrite Hl. reflexivity.
Qed.

Lemma truncated_payload_reported_as_dimension_mismatch_witness :
  fst (BloscPythonParser_parse Samples.max_size Samples.unpack_truncated
         Samples.small_image_context (fresh_stream Samples.payload))
  = Val (BossParserError unpack_failed_message DATA_DIMENSION_MISMATCH)
  /\ fst (NpygzParser_parse Samples.max_size Samples.zlib_ok Samples.unpack_truncated
            Samples.small_image_context (fresh_stream Samples.payload))
     = Val (BossParserError unpack_failed_message DATA_DIMENSION_MISMATCH).
Proof.
  apply (truncated_payload_reported_as_dimension_mismatch Samples.max_size
           Samples.unpack_truncated Samples.zlib_ok Samples.unpack_truncated
           Samples.small_image_context (fresh_stream Samples.payload)
           Samples.small_request Samples.image_resource 8 "Ran out of input"
           Samples.payload); reflexivity.
Defined.


Lemma np_reshape_keeps_data (a b : ndarray) (dims : list Z) :
  np_reshape a dims = Val b -> flat b = flat a /\ arr_dtype b = arr_dtype a.
Proof.
  unfold np_reshape.
  destruct (length (filter _ dims)) as [|[|n]];
    repeat match goal with |- context [if ?b then _ else _] => destruct b end;
    intros H; try discriminate H; injection H as <-; split; reflexivity.
Qed.



(** ** From bytes to elements *)

Lemma chunks_concat (fuel k : nat) :
  forall raw : bytes,
  (0 < k)%nat -> (length raw <= fuel)%nat -> concat (chunks fuel k raw) = raw.
Proof.
  induction fuel as [|fuel IH]; intros raw Hk Hlen.
  - destruct raw; [reflexivity | simpl in Hlen; lia].
  - destruct raw as [|b raw]; [reflexivity|].
    cbn [chunks concat]. rewrite IH.
    + apply take_drop.
    + exact Hk.
    + rewrite length_drop. simpl in *. lia.
Qed.

Lemma chunks_items (fuel k : nat) :
  forall (raw : bytes) (c : nat),
  (0 < k)%nat -> (length raw <= fuel)%nat -> length raw = (c * k)%nat ->
  Forall (fun it => length it = k) (chunks fuel k raw) /\ length (chunks fuel k raw) = c.
Proof.
  induction fuel as [|fuel IH]; intros raw c Hk Hlen Hc.
  - destruct raw; [|simpl in Hlen; lia]. simpl in *. split; [constructor | nia].
  - destruct raw as [|b raw].
    + simpl in *. split; [constructor | nia].
    + destruct c as [|c]; [simpl in Hc; lia|].
      destruct (IH (drop k (b :: raw)) c Hk) as [Hall Hcount].
      * rewrite length_drop. simpl in *. lia.
      * rewrite length_drop. lia.
      * cbn [chunks]. split.
        -- constructor; [|exact Hall]. rewrite length_take. lia.
        -- simpl. rewrite Hcount. reflexivity.
Qed.

(** What [np.fromstring] makes of a buffer it takes: a flat array of the
    resource's element type whose elements, in order, are the buffer. *)
Lemma np_fromstring_Val (raw : bytes) (dt : dtype) (a : ndarray) :
  np_fromstring raw dt = Val a ->
  concat (flat a) = raw /\ arr_dtype a = dt
  /\ Forall (fun it => length it = itemsize dt) (flat a)
  /\ (length (flat a) * itemsize dt = length raw)%nat.
Proof.
  unfold np_fromstring. destruct (itemsize dt) as [|k] eqn:Hk; [discriminate|].
  destruct (Nat.eqb_spec (length raw `mod` S k) 0) as [Hmod | Hmod]; [|discriminate].
  intros H. injection H as <-. simpl.
  apply Nat.Div0.mod_divides in Hmod as [c Hc].
  destruct (chunks_items (length raw) (S k) raw c) as [Hall Hcount]; [lia | lia | lia |].
  split; [apply chunks_concat; lia|]. split; [reflexivity|]. split; [exact Hall|].
  rewrite Hcount. lia.
Qed.

Lemma np_fromstring_Exn (raw : bytes) (dt : dtype) :
  (length raw `mod` itemsize dt)%nat <> 0%nat ->
  exists m, np_fromstring raw dt = Exn (ValueError m).
Proof.
  intros Hmod. unfold np_fromstring. destruct (itemsize dt) as [|k] eqn:Hk; [eauto|].
  destruct (Nat.eqb_spec (length raw `mod` S k) 0) as [H0 | H0]; [contradiction | eauto].
Qed.

(** The run of [BloscParser] from the decompressed buffer on. *)
Lemma BloscParser_run (max : Z) (blosc_decompress : bytes -> pyresult bytes)
    (ctx : parser_context) (w : world) (req : BossRequest) (resource : BossResource)
    (bit_depth : Z) (raw : bytes) :
  build_request ctx = Val req ->
  build_resource ctx req = Val resource ->
  get_bit_depth resource = Val bit_depth ->
  is_too_large max req bit_depth = Val false ->
  read_raises w = None ->
  blosc_decompress (unread w) = Val raw ->
  fst (BloscParser_parse max blosc_decompress ctx w)
  = match np_fromstring raw (get_numpy_data_type resource) with
    | Exn (MemoryError _) => Val (BossParserError out_of_memory_message BOSS_SYSTEM_ERROR)
    | Exn _ => Val (BossParserError decompress_failed_message DATATYPE_DOES_NOT_MATCH)
    | Val data_mat =>
        match np_reshape data_mat
                (if time_request req
                 then [time_len req; z_span req; y_span req; x_span req]
                 else [z_span req; y_span req; x_span req]) with
        | Val arr => Val (Parsed req resource arr)
        | Exn (ValueError _) =>
            Val (BossParserError unpack_failed_message DATA_DIMENSION_MISMATCH)
        | Exn e => Exn e
        end
    end.
Proof.
  intros Hreq Hres Hbits Hsmall Hread Hdec.
  run_to_size_check Hreq Hres Hbits Hsmall. rewrite Hread. simpl. rewrite Hdec. simpl.
  destruct (np_fromstring raw _) as [data_mat | e]; simpl.
  - destruct (time_request req);
      match goal with |- context [np_reshape ?a ?d] => destruct (np_reshape a d) as [arr|e] end;
      try reflexivity; destruct e; reflexivity.
  - destruct e; reflexivity.
Qed.

(** A buffer whose length is no multiple of the element size of the
    resource is reported by [BloscParser] as data that does not match the
    channel's type. *)
Theorem ragged_buffer_reported_as_datatype_mismatch (max : Z)
    (blosc_decompress : bytes -> pyresult bytes) (ctx : parser_context) (w : world)
    (req : BossRequest) (resource : BossResource) (bit_depth : Z) (raw : bytes) :
  build_request ctx = Val req ->
  build_resource ctx req = Val resource ->
  get_bit_depth resource = Val bit_depth ->
  is_too_large max req bit_depth = Val false ->
  read_raises w = None ->
  blosc_decompress (unread w) = Val raw ->
  (length raw `mod` itemsize (get_numpy_data_type resource))%nat <> 0%nat ->
  fst (BloscParser_parse max blosc_decompress ctx w)
  = Val (BossParserError decompress_failed_message DATATYPE_DOES_NOT_MATCH).
Proof.
  intros Hreq Hres Hbits Hsmall Hread Hdec Hmod.
  rewrite (BloscParser_run _ _ _ _ _ _ _ _ Hreq Hres Hbits Hsmall Hread Hdec).
  destruct (np_fromstring_Exn _ _ Hmod) as [m ->]. reflexivity.
Qed.

Lemma ragged_buffer_reported_as_datatype_mismatch_witness :
  fst (BloscParser_parse Samples.max_size Samples.blosc_ok
         Samples.large_annotation_context (fresh_stream Samples.payload))
  = Val (BossParserError decompress_failed_message DATATYPE_DOES_NOT_MATCH).
Proof.
  apply (ragged_buffer_reported_as_datatype_mismatch Samples.max_size Samples.blosc_ok
           Samples.large_annotation_context (fresh_stream Samples.payload)
           Samples.large_annotation_request Samples.annotation_resource 64
           Samples.payload);
    try reflexivity.
  vm_compute. discriminate.
Defined.

(** The array [BloscParser] returns holds the decompressed buffer and
    nothing else: its elements, in row-major order, are the bytes of the
    buffer cut into pieces of the element size of the resource. *)
Theorem BloscParser_array_is_the_decompressed_buffer (max : Z)
    (blosc_decompress : bytes -> pyresult bytes) (ctx : parser_context) (w w' : world)
    (req : BossRequest) (res : BossResource) (arr : ndarray) :
  BloscParser_parse max blosc_decompress ctx w = (Val (Parsed req res arr), w') ->
  blosc_decompress (unread w) = Val (concat (flat arr))
  /\ arr_dtype arr = get_numpy_data_type res
  /\ Forall (fun it => length it = itemsize (get_numpy_data_type res)) (flat arr).
Proof.
  crush_parse; intros H; try discriminate H; try congruence.
  all: injection H as <- <- <- <-.
  all: apply np_reshape_keeps_data in Eshape as [-> ->].
  all: apply np_fromstring_Val in Efrom as (-> & -> & Hall & _).
  all: repeat split; assumption.
Qed.

Lemma BloscParser_array_is_the_decompressed_buffer_witness :
  Samples.blosc_ok (unread (fresh_stream Samples.payload))
  = Val (concat [[Byte.x01]; [Byte.x02]; [Byte.x03]; [Byte.x04]])
  /\ Samples.uint8 = get_numpy_data_type Samples.image_resource
  /\ Forall (fun it => length it = itemsize (get_numpy_data_type Samples.image_resource))
            [[Byte.x01]; [Byte.x02]; [Byte.x03]; [Byte.x04]].
Proof.
  apply (BloscParser_array_is_the_decompressed_buffer Samples.max_size Samples.blosc_ok
           Samples.small_image_context (fresh_stream Samples.payload)
           (mkWorld [] None [EvStreamRead; EvBloscDecompress])
           Samples.small_request Samples.image_resource
           (mkNdarray [1; 2; 2] Samples.uint8
              [[Byte.x01]; [Byte.x02]; [Byte.x03]; [Byte.x04]])).
  vm_compute. reflexivity.
Defined.




(** ** More on the size check *)

(** Within the range of the size check (ceiling below 2^48 in absolute
    value, volume at 64 bits below 2^1026), the relaxed check of 64-bit
    data is the check of 16-bit data: a request for 64-bit voxels passes
    exactly when the same extents pass at 16 bits. *)
Theorem is_too_large_64_as_16 (max : Z) (req : BossRequest) :
  - 2 ^ 48 <= max < 2 ^ 48 ->
  Z.abs (x_span req * y_span req * z_span req * (time_stop req - time_start req) * 64)
  < 2 ^ 1026 ->
  is_too_large max req 64 = is_too_large max req 16.
Proof.
  intros Hmax Hn.
  rewrite (is_too_large_spec max req 64 Hmax Hn).
  rewrite (is_too_large_spec max req 16 Hmax) by lia.
  f_equal. simpl (_ =? _).
  apply Bool.eq_iff_eq_true. rewrite !Z.ltb_lt. lia.
Qed.

Lemma is_too_large_64_as_16_witness :
  is_too_large Samples.max_size Samples.large_annotation_request 64
  = is_too_large Samples.max_size Samples.large_annotation_request 16.
Proof.
  apply (is_too_large_64_as_16 Samples.max_size Samples.large_annotation_request).
  - split; [apply Z.leb_le | apply Z.ltb_lt]; vm_compute; reflexivity.
  - apply Z.ltb_lt. vm_compute. reflexivity.
Defined.

(** Within the range of the size check (ceiling below 2^48 in absolute
    value, volume of the larger request below 2^1026 bits), the check is
    monotone: a request that is too large stays too large when its spans
    grow, at the same bit depth. *)
Theorem is_too_large_monotone (max : Z) (req req' : BossRequest) (bit_depth : Z) :
  - 2 ^ 48 <= max < 2 ^ 48 ->
  x_span req' * y_span req' * z_span req' * (time_stop req' - time_start req') * bit_depth
  < 2 ^ 1026 ->
  0 <= bit_depth ->
  0 <= x_span req <= x_span req' -> 0 <= y_span req <= y_span req' ->
  0 <= z_span req <= z_span req' ->
  0 <= time_stop req - time_start req <= time_stop req' - time_start req' ->
  is_too_large max req bit_depth = Val true -> is_too_large max req' bit_depth = Val true.
Proof.
  intros Hmax Hn' Hb Hx Hy Hz Ht.
  assert (Hxy : x_span req * y_span req <= x_span req' * y_span req')
    by (apply Z.mul_le_mono_nonneg; lia).
  assert (Hxyz : x_span req * y_span req * z_span req
                 <= x_span req' * y_span req' * z_span req')
    by (apply Z.mul_le_mono_nonneg; nia).
  assert (Hxyzt : x_span req * y_span req * z_span req * (time_stop req - time_start req)
                  <= x_span req' * y_span req' * z_span req'
                     * (time_stop req' - time_start req'))
    by (apply Z.mul_le_mono_nonneg; nia).
  assert (H0 : 0 <= x_span req * y_span req * z_span req * (time_stop req - time_start req))
    by nia.
  assert (Hle : x_span req * y_span req * z_span req * (time_stop req - time_start req)
                * bit_depth
                <= x_span req' * y_span req' * z_span req'
                   * (time_stop req' - time_start req') * bit_depth)
    by (apply Z.mul_le_mono_nonneg_r; assumption).
  assert (H0b : 0 <= x_span req * y_span req * z_span req
                     * (time_stop req - time_start req) * bit_depth)
    by (apply Z.mul_nonneg_nonneg; assumption).
  rewrite (is_too_large_spec max req bit_depth Hmax) by lia.
  rewrite (is_too_large_spec max req' bit_depth Hmax) by lia.
  intros H. injection H as H. apply Z.ltb_lt in H. f_equal. apply Z.ltb_lt. lia.
Qed.

Lemma is_too_large_monotone_witness :
  is_too_large Samples.max_size (mkBossRequest 2048 1024 512 0 1 false) 8 = Val true.
Proof.
  apply (is_too_large_monotone Samples.max_size Samples.huge_image_request
           (mkBossRequest 2048 1024 512 0 1 false) 8).
  - split; [apply Z.leb_le | apply Z.ltb_lt]; vm_compute; reflexivity.
  - apply Z.ltb_lt. vm_compute. reflexivity.
  - lia.
  - simpl. lia.
  - simpl. lia.
  - simpl. lia.
  - simpl. lia.
  - vm_compute. reflexivity.
Defined.

(** * Further properties of the key space *)

(** A validator that takes every record whose key pair is not stored. *)
Lemma unique_pair_valid_accepts (db : table) (d : BossLookup) :
  Forall (fun r => ~ (lookup_key r = lookup_key d /\ boss_key r = boss_key d)) db ->
  unique_pair_valid db d = true.
Proof. apply unique_pair_valid_true. Qed.

(** A validator that takes a record only when its key pair is not stored. *)
Lemma unique_pair_valid_sound (db : table) (d : BossLookup) :
  unique_pair_valid db d = true ->
  Forall (fun r => ~ (lookup_key r = lookup_key d /\ boss_key r = boss_key d)) db.
Proof. apply unique_pair_valid_true. Qed.

(** With a validator that takes every record whose pair is not stored, on a
    table that holds none of the pairs, the loop stores one record per
    time, in order. *)
Lemma time_loop_accepting (is_valid : table -> BossLookup -> bool) (lk bk : string)
    (times : list Z) :
  (forall db0 d,
      Forall (fun r => ~ (lookup_key r = lookup_key d /\ boss_key r = boss_key d)) db0 ->
      is_valid db0 d = true) ->
  forall (d : BossLookup) (db : table),
  NoDup times ->
  Forall (fun t => Forall (fun r => ~ (lookup_key r = (lk +:+ "&") +:+ str t
                                       /\ boss_key r = (bk +:+ "&") +:+ str t)) db) times ->
  exists d' : BossLookup,
    time_loop is_valid lk bk times d db
    = (Val d', db ++ (loop_record lk bk d <$> times)).
Proof.
  intros Hacc. induction times as [|t rest IH]; intros d db Hnd Hfresh.
  - exists d. simpl. unfold ret. by rewrite app_nil_r.
  - apply NoDup_cons in Hnd as [Hnotin Hnd].
    apply Forall_cons in Hfresh as [Ht Hrest].
    simpl. unfold bind at 1. unfold serializer_is_valid at 1.
    set (d1 := set_boss_key _ _).
    assert (Hd1 : d1 = loop_record lk bk d t) by reflexivity.
    assert (Hvalid : is_valid db d1 = true).
    { apply Hacc. rewrite Hd1. exact Ht. }
    rewrite Hvalid. unfold bind, serializer_save.
    assert (Hfresh1 : Forall (fun t' => Forall (fun r =>
              ~ (lookup_key r = (lk +:+ "&") +:+ str t'
                 /\ boss_key r = (bk +:+ "&") +:+ str t')) (db ++ [d1])) rest).
    { rewrite Forall_forall in Hrest. apply Forall_forall. intros t' Hin.
      apply Forall_app. split; [exact (Hrest t' Hin)|].
      constructor; [|constructor]. rewrite Hd1. simpl. intros [Hk _].
      apply suffixed_key_inj in Hk. subst t'. exact (Hnotin Hin). }
    destruct (IH d1 (db ++ [d1]) Hnd Hfresh1) as (d' & Heq).
    exists d'. rewrite Heq. rewrite <- app_assoc. reflexivity.
Qed.

Lemma add_lookup_expands_accepting (is_valid : table -> BossLookup -> bool)
    (lk bk cn en chn : string) (n : Z) (db : table) :
  (forall db0 d,
      Forall (fun r => ~ (lookup_key r = lookup_key d /\ boss_key r = boss_key d)) db0 ->
      is_valid db0 d = true) ->
  0 < n -> cn <> "" -> en <> "" -> chn <> "" ->
  Forall (fun r => ~ (lookup_key r = lk /\ boss_key r = bk)) db ->
  Forall (fun t => Forall (fun r => ~ (lookup_key r = (lk +:+ "&") +:+ str t
                                       /\ boss_key r = (bk +:+ "&") +:+ str t)) db)
         (range (n + 1)) ->
  add_lookup is_valid lk bk cn (Some en) (Some chn) (Some n) db
  = (Val tt, db ++ mkBossLookup lk bk cn (Some en) (Some chn)
               :: (time_record (mkBossLookup lk bk cn (Some en) (Some chn))
                     <$> range (n + 1))).
Proof.
  intros Hacc Hn Hcn Hen Hchn Hbase Htimes.
  set (base := mkBossLookup lk bk cn (Some en) (Some chn)).
  unfold add_lookup. fold base. unfold bind at 1. unfold serializer_is_valid at 1.
  rewrite (Hacc db base Hbase). unfold bind at 1. unfold serializer_save at 1.
  assert (Hguard : truthy_str cn && truthy_opt_str (Some en) && truthy_opt_str (Some chn)
                   && truthy_opt_int (Some n) = true).
  { unfold truthy_opt_str, truthy_opt_int, truthy_str.
    rewrite !bool_decide_eq_false_2 by done.
    simpl. apply negb_true_iff, Z.eqb_neq. lia. }
  rewrite Hguard. unfold bind.
  assert (Hfresh : Forall (fun t => Forall (fun r =>
            ~ (lookup_key r = (lk +:+ "&") +:+ str t
               /\ boss_key r = (bk +:+ "&") +:+ str t)) (db ++ [base])) (range (n + 1))).
  { rewrite Forall_forall in Htimes. apply Forall_forall. intros t Hin.
    apply Forall_app. split; [exact (Htimes t Hin)|].
    constructor; [|constructor]. simpl. intros [Hk _].
    symmetry in Hk. exact (suffixed_key_ne _ _ Hk). }
  destruct (time_loop_accepting is_valid lk bk (range (n + 1)) Hacc base (db ++ [base])
              (NoDup_range _) Hfresh) as (d' & Heq).
  rewrite Heq. unfold ret. rewrite <- app_assoc. reflexivity.
Qed.

(** The rows the loop adds are records of its times, in the order of the
    times, each at most once. *)
Lemma time_loop_sublist (is_valid : table -> BossLookup -> bool) (lk bk : string)
    (times : list Z) :
  forall (d : BossLookup) (db : table),
  exists (d' : BossLookup) (added : table),
    time_loop is_valid lk bk times d db = (Val d', db ++ added)
    /\ added `sublist_of` (loop_record lk bk d <$> times).
Proof.
  induction times as [|t rest IH]; intros d db.
  - exists d, []. split; [|constructor]. simpl. unfold ret. by rewrite app_nil_r.
  - simpl. unfold bind at 1. unfold serializer_is_valid at 1.
    set (d1 := set_boss_key _ _).
    destruct (is_valid db d1); unfold bind, serializer_save, ret.
    + destruct (IH d1 (db ++ [d1])) as (d' & added & Heq & Hsub).
      exists d', (d1 :: added). rewrite Heq. split; [by rewrite <- app_assoc|].
      apply sublist_skip. exact Hsub.
    + destruct (IH d1 db) as (d' & added & Heq & Hsub).
      exists d', added. rewrite Heq. split; [done|].
      apply sublist_cons. exact Hsub.
Qed.

(** [add_lookup] returns [None] whatever the validator answers, leaves every
    stored row in place, and adds nothing but the base record and the time
    records of [0..max_time_sample], in that order and each at most once. *)
Theorem add_lookup_only_appends (is_valid : table -> BossLookup -> bool)
    (lk bk cn : string) (en chn : option string) (mts : option Z) (db : table) :
  fst (add_lookup is_valid lk bk cn en chn mts db) = Val tt
  /\ take (length db) (snd (add_lookup is_valid lk bk cn en chn mts db)) = db
  /\ created db (snd (add_lookup is_valid lk bk cn en chn mts db))
     `sublist_of` (mkBossLookup lk bk cn en chn
                   :: match mts with
                      | Some n => time_record (mkBossLookup lk bk cn en chn) <$> range (n + 1)
                      | None => []
                      end).
Proof.
  set (base := mkBossLookup lk bk cn en chn).
  assert (H : exists added,
             add_lookup is_valid lk bk cn en chn mts db = (Val tt, db ++ added)
             /\ added `sublist_of`
                  (base :: match mts with
                           | Some n => time_record base <$> range (n + 1)
                           | None => []
                           end)).
  { unfold add_lookup. fold base. unfold bind at 1. unfold serializer_is_valid at 1.
    destruct (is_valid db base).
    - unfold bind at 1. unfold serializer_save at 1.
      destruct (truthy_str cn && truthy_opt_str en && truthy_opt_str chn
                && truthy_opt_int mts); [destruct mts as [n|]|].
      + unfold bind.
        destruct (time_loop_sublist is_valid lk bk (range (n + 1)) base (db ++ [base]))
          as (d' & added & Heq & Hsub).
        rewrite Heq. unfold ret. exists (base :: added).
        split; [by rewrite <- app_assoc|]. apply sublist_skip. exact Hsub.
      + exists [base]. split; [done|]. apply sublist_skip, sublist_nil_l.
      + exists [base]. split; [done|]. apply sublist_skip, sublist_nil_l.
    - exists []. split; [unfold ret; by rewrite app_nil_r | apply sublist_nil_l]. }
  destruct H as (added & Heq & Hsub). rewrite Heq. simpl.
  split; [reflexivity|]. split; [by rewrite take_app_length|].
  rewrite created_app. exact Hsub.
Qed.

(** The time series of a channel: for a maximum time sample [n] of 1 or
    more, names that are all given, a validator that takes every record
    whose key pair is not stored, and a table that holds none of the pairs,
    [add_lookup] creates the base record and then the [n + 1] records of the
    times [0..n], keyed from the base keys. *)
Theorem add_lookup_creates_time_series (is_valid : table -> BossLookup -> bool)
    (lk bk cn en chn : string) (n : Z) (db : table) :
  (forall db0 d,
      Forall (fun r => ~ (lookup_key r = lookup_key d /\ boss_key r = boss_key d)) db0 ->
      is_valid db0 d = true) ->
  0 < n -> cn <> "" -> en <> "" -> chn <> "" ->
  Forall (fun r => ~ (lookup_key r = lk /\ boss_key r = bk)) db ->
  Forall (fun t => Forall (fun r => ~ (lookup_key r = (lk +:+ "&") +:+ str t
                                       /\ boss_key r = (bk +:+ "&") +:+ str t)) db)
         (range (n + 1)) ->
  created db (snd (add_lookup is_valid lk bk cn (Some en) (Some chn) (Some n) db))
  = mkBossLookup lk bk cn (Some en) (Some chn)
    :: (time_record (mkBossLookup lk bk cn (Some en) (Some chn)) <$> range (n + 1))
  /\ length (created db (snd (add_lookup is_valid lk bk cn (Some en) (Some chn)
                                (Some n) db)))
     = S (Z.to_nat (n + 1)).
Proof.
  intros Hacc Hn Hcn Hen Hchn Hbase Htimes.
  rewrite (add_lookup_expands_accepting is_valid lk bk cn en chn n db Hacc Hn Hcn Hen Hchn
             Hbase Htimes).
  simpl. rewrite created_app. split; [reflexivity|].
  simpl. rewrite length_fmap. unfold range. rewrite length_fmap, length_seq. reflexivity.
Qed.

Lemma add_lookup_creates_time_series_witness :
  created [] (snd (add_lookup unique_pair_valid "1&2&3" "col1&exp1&channel1" "col1"
                     (Some "exp1") (Some "channel1") (Some 2) []))
  = mkBossLookup "1&2&3" "col1&exp1&channel1" "col1" (Some "exp1") (Some "channel1")
    :: (time_record (mkBossLookup "1&2&3" "col1&exp1&channel1" "col1" (Some "exp1")
                       (Some "channel1")) <$> range (2 + 1))
  /\ length (created [] (snd (add_lookup unique_pair_valid "1&2&3" "col1&exp1&channel1"
                                "col1" (Some "exp1") (Some "channel1") (Some 2) [])))
     = S (Z.to_nat (2 + 1)).
Proof.
  apply (add_lookup_creates_time_series unique_pair_valid "1&2&3" "col1&exp1&channel1"
           "col1" "exp1" "channel1" 2 [] unique_pair_valid_accepts).
  - lia.
  - discriminate.
  - discriminate.
  - discriminate.
  - constructor.
  - apply Forall_forall. intros t _. constructor.
Defined.

(** No time series: when a name is missing or empty, or no maximum time
    sample is given, or it is negative, the call creates the base record at
    most. *)
Theorem add_lookup_without_time_series (is_valid : table -> BossLookup -> bool)
    (lk bk cn : string) (en chn : option string) (mts : option Z) (db : table) :
  cn = "" \/ truthy_opt_str en = false \/ truthy_opt_str chn = false
  \/ mts = None \/ (exists n, mts = Some n /\ n < 0) ->
  created db (snd (add_lookup is_valid lk bk cn en chn mts db))
  = if is_valid db (mkBossLookup lk bk cn en chn)
    then [mkBossLookup lk bk cn en chn] else [].
Proof.
  intros H. unfold add_lookup, bind, serializer_is_valid, serializer_save, ret.
  destruct (is_valid db _); simpl; [|unfold created; by rewrite drop_all].
  destruct H as [-> | [H | [H | [-> | (n & -> & Hn)]]]].
  - simpl. apply created_app.
  - rewrite H, andb_false_r. simpl. apply created_app.
  - rewrite H, andb_false_r. simpl. apply created_app.
  - rewrite andb_false_r. simpl. apply created_app.
  - destruct (truthy_str cn && truthy_opt_str en && truthy_opt_str chn
              && truthy_opt_int (Some n)); simpl; [|apply created_app].
    unfold range. replace (Z.to_nat (n + 1)) with 0%nat by lia. simpl. apply created_app.
Qed.

Lemma add_lookup_without_time_series_witness :
  created [] (snd (add_lookup unique_pair_valid "1&2" "col1&exp1" "col1" (Some "exp1")
                     None (Some 10) []))
  = if unique_pair_valid [] (mkBossLookup "1&2" "col1&exp1" "col1" (Some "exp1") None)
    then [mkBossLookup "1&2" "col1&exp1" "col1" (Some "exp1") None] else [].
Proof.
  apply (add_lookup_without_time_series unique_pair_valid "1&2" "col1&exp1" "col1"
           (Some "exp1") None (Some 10) []).
  right. right. left. reflexivity.
Defined.

(** A row whose pair no stored row has keeps the pairs of the table
    different when it is added. *)
Lemma NoDup_snoc_pairs (db : table) (d : BossLookup) :
  NoDup (key_pair <$> db) ->
  Forall (fun r => ~ (lookup_key r = lookup_key d /\ boss_key r = boss_key d)) db ->
  NoDup (key_pair <$> (db ++ [d])).
Proof.
  intros Hnd Hfresh. rewrite fmap_app. apply NoDup_app. split; [exact Hnd|].
  split; [|apply NoDup_singleton].
  intros x Hx Hd. simpl in Hd. apply list_elem_of_singleton in Hd. subst x.
  apply list_elem_of_fmap in Hx as (r & Heq & Hr).
  rewrite Forall_forall in Hfresh. apply (Hfresh r Hr).
  unfold key_pair in Heq. by injection Heq as -> ->.
Qed.

Lemma time_loop_keeps_pairs_unique (is_valid : table -> BossLookup -> bool)
    (lk bk : string) (times : list Z) :
  (forall db0 d,
      is_valid db0 d = true ->
      Forall (fun r => ~ (lookup_key r = lookup_key d /\ boss_key r = boss_key d)) db0) ->
  forall (d : BossLookup) (db : table),
  NoDup (key_pair <$> db) ->
  NoDup (key_pair <$> snd (time_loop is_valid lk bk times d db)).
Proof.
  intros Hsound. induction times as [|t rest IH]; intros d db Hnd; [exact Hnd|].
  simpl. unfold bind at 1. unfold serializer_is_valid at 1.
  set (d1 := set_boss_key _ _).
  destruct (is_valid db d1) eqn:Hvalid; unfold bind, serializer_save, ret.
  - apply IH. apply NoDup_snoc_pairs; [exact Hnd|]. by apply Hsound.
  - apply IH. exact Hnd.
Qed.

(** With a validator that takes a record only when its key pair is not
    stored, [add_lookup] keeps the table free of repeated key pairs. *)
Theorem add_lookup_keeps_pairs_unique (is_valid : table -> BossLookup -> bool)
    (lk bk cn : string) (en chn : option string) (mts : option Z) (db : table) :
  (forall db0 d,
      is_valid db0 d = true ->
      Forall (fun r => ~ (lookup_key r = lookup_key d /\ boss_key r = boss_key d)) db0) ->
  NoDup (key_pair <$> db) ->
  NoDup (key_pair <$> snd (add_lookup is_valid lk bk cn en chn mts db)).
Proof.
  intros Hsound Hnd. unfold add_lookup. unfold bind at 1. unfold serializer_is_valid at 1.
  destruct (is_valid db _) eqn:Hvalid; [|exact Hnd].
  unfold bind at 1. unfold serializer_save at 1.
  assert (Hnd1 : NoDup (key_pair <$> (db ++ [mkBossLookup lk bk cn en chn])))
    by (apply NoDup_snoc_pairs; [exact Hnd | by apply Hsound]).
  destruct (truthy_str cn && truthy_opt_str en && truthy_opt_str chn
            && truthy_opt_int mts); [destruct mts as [n|]|]; try exact Hnd1.
  unfold bind.
  pose proof (time_loop_keeps_pairs_unique is_valid lk bk (range (n + 1)) Hsound
                (mkBossLookup lk bk cn en chn) _ Hnd1) as H.
  destruct (time_loop _ _ _ _ _ _) as [[d'|e] db']; exact H.
Qed.

Lemma add_lookup_keeps_pairs_unique_witness :
  NoDup (key_pair <$> snd (add_lookup unique_pair_valid "1&2&3" "col1&exp1&channel1"
                             "col1" (Some "exp1") (Some "channel1") (Some 2)
                             [mkBossLookup "1&2&3&1" "col1&exp1&channel1&1" "col1"
                                (Some "exp1") (Some "channel1")])).
Proof.
  apply (add_lookup_keeps_pairs_unique unique_pair_valid "1&2&3" "col1&exp1&channel1"
           "col1" (Some "exp1") (Some "channel1") (Some 2)
           [mkBossLookup "1&2&3&1" "col1&exp1&channel1&1" "col1" (Some "exp1")
              (Some "channel1")] unique_pair_valid_sound).
  apply NoDup_singleton.
Defined.

(** ** Resolving the keys of a time series *)

Lemma filter_time_records_other (base : BossLookup) (bkey : string) (ts : list Z) :
  Forall (fun t => (boss_key base +:+ "&") +:+ str t <> bkey) ts ->
  filter (fun r => boss_key r = bkey) (time_record base <$> ts) = [].
Proof.
  intros Hall. apply filter_none_iff, Forall_fmap.
  eapply Forall_impl; [exact Hall|]. intros t Ht. exact Ht.
Qed.

Lemma filter_time_records (base : BossLookup) (t : Z) (ts : list Z) :
  NoDup ts -> t ∈ ts ->
  filter (fun r => boss_key r = (boss_key base +:+ "&") +:+ str t) (time_record base <$> ts)
  = [time_record base t].
Proof.
  induction ts as [|t0 ts IH]; intros Hnd Hin.
  - by apply elem_of_nil in Hin.
  - apply NoDup_cons in Hnd as [Hnotin Hnd]. rewrite fmap_cons.
    destruct (decide (t0 = t)) as [-> | Hne].
    + rewrite filter_cons_True by reflexivity. f_equal.
      apply filter_time_records_other, Forall_forall.
      intros t' Hin' Heq. apply suffixed_key_inj in Heq. subst t'. exact (Hnotin Hin').
    + rewrite filter_cons_False.
      * apply IH; [exact Hnd|]. apply elem_of_cons in Hin as [-> | Hin]; [done | exact Hin].
      * simpl. intros Heq. apply suffixed_key_inj in Heq. exact (Hne Heq).
Qed.

(** Writing and resolving a time series: after [add_lookup] for a channel
    with maximum time sample [n] of 1 or more, with a validator that takes
    every record whose key pair is not stored, on a table in which the boss
    key and its time keys were not in use, the boss key resolves to the base
    record and the boss key of every time [t] of [0..n] resolves to the
    record whose lookup key is the base lookup key followed by [&t]. *)
Theorem time_series_keys_resolve (is_valid : table -> BossLookup -> bool)
    (lk bk cn en chn : string) (n t : Z) (db : table) :
  (forall db0 d,
      Forall (fun r => ~ (lookup_key r = lookup_key d /\ boss_key r = boss_key d)) db0 ->
      is_valid db0 d = true) ->
  0 < n -> cn <> "" -> en <> "" -> chn <> "" ->
  Forall (fun r => boss_key r <> bk) db ->
  Forall (fun r => forall t', boss_key r <> (bk +:+ "&") +:+ str t') db ->
  0 <= t <= n ->
  get_lookup_key ((bk +:+ "&") +:+ str t)
    (snd (add_lookup is_valid lk bk cn (Some en) (Some chn) (Some n) db))
  = (Val (mkBossLookup ((lk +:+ "&") +:+ str t) ((bk +:+ "&") +:+ str t) cn (Some en)
            (Some chn)),
     snd (add_lookup is_valid lk bk cn (Some en) (Some chn) (Some n) db))
  /\ get_lookup_key bk
       (snd (add_lookup is_valid lk bk cn (Some en) (Some chn) (Some n) db))
     = (Val (mkBossLookup lk bk cn (Some en) (Some chn)),
        snd (add_lookup is_valid lk bk cn (Some en) (Some chn) (Some n) db)).
Proof.
  intros Hacc Hn Hcn Hen Hchn Hbk Htk Ht.
  set (base := mkBossLookup lk bk cn (Some en) (Some chn)).
  assert (Heq : add_lookup is_valid lk bk cn (Some en) (Some chn) (Some n) db
                = (Val tt, db ++ base :: (time_record base <$> range (n + 1)))).
  { apply add_lookup_expands_accepting; try assumption.
    - eapply Forall_impl; [exact Hbk|]. intros r Hr [_ Hb]. exact (Hr Hb).
    - apply Forall_forall. intros t' _. eapply Forall_impl; [exact Htk|].
      intros r Hr [_ Hb]. exact (Hr t' Hb). }
  rewrite Heq. simpl.
  assert (Hdb : forall bkey, Forall (fun r => boss_key r <> bkey) db ->
                  filter (fun r => boss_key r = bkey) db = [])
    by (intros bkey; apply filter_none_iff).
  unfold get_lookup_key, objects_get, bind, ret. split.
  - rewrite filter_app, Hdb.
    + rewrite filter_cons_False by (simpl; intros H; exact (suffixed_key_ne _ _ (eq_sym H))).
      change ((bk +:+ "&") +:+ str t) with ((boss_key base +:+ "&") +:+ str t).
      rewrite filter_time_records; [reflexivity | apply NoDup_range|].
      apply elem_of_range. lia.
    + eapply Forall_impl; [exact Htk|]. intros r Hr. exact (Hr t).
  - rewrite filter_app, (Hdb bk Hbk).
    rewrite filter_cons_True by reflexivity.
    rewrite filter_time_records_other; [reflexivity|].
    apply Forall_forall. intros t' _. apply suffixed_key_ne.
Qed.

Lemma time_series_keys_resolve_witness :
  get_lookup_key (("col1&exp1&channel1" +:+ "&") +:+ str 2)
    (snd (add_lookup unique_pair_valid "1&2&3" "col1&exp1&channel1" "col1" (Some "exp1")
            (Some "channel1") (Some 2) []))
  = (Val (mkBossLookup (("1&2&3" +:+ "&") +:+ str 2)
            (("col1&exp1&channel1" +:+ "&") +:+ str 2) "col1" (Some "exp1")
            (Some "channel1")),
     snd (add_lookup unique_pair_valid "1&2&3" "col1&exp1&channel1" "col1" (Some "exp1")
            (Some "channel1") (Some 2) []))
  /\ get_lookup_key "col1&exp1&channel1"
       (snd (add_lookup unique_pair_valid "1&2&3" "col1&exp1&channel1" "col1"
               (Some "exp1") (Some "channel1") (Some 2) []))
     = (Val (mkBossLookup "1&2&3" "col1&exp1&channel1" "col1" (Some "exp1")
               (Some "channel1")),
        snd (add_lookup unique_pair_valid "1&2&3" "col1&exp1&channel1" "col1"
               (Some "exp1") (Some "channel1") (Some 2) [])).
Proof.
  apply (time_series_keys_resolve unique_pair_valid "1&2&3" "col1&exp1&channel1" "col1"
           "exp1" "channel1" 2 2 [] unique_pair_valid_accepts).
  - lia.
  - discriminate.
  - discriminate.
  - discriminate.
  - constructor.
  - constructor.
  - lia.
Defined.

(** * Properties of the metadata store *)

Ltac unfold_metadb :=
  unfold MetaDB.writemeta, MetaDB.getmeta, MetaDB.deletemeta, MetaDB.updatemeta,
    MetaDB.put_item, MetaDB.get_item, MetaDB.delete_item, MetaDB.update_item,
    MetaDB.print, bind, ret.

(** Write, then read: [getmeta] answers with the value of the last
    [writemeta] of the key, whatever the key held before, and every other
    key reads as it did before the write. *)
Theorem getmeta_after_writemeta (refuses : MetaDB.request -> option pyexn)
    (key value other : string) (s : MetaDB.state) :
  refuses (MetaDB.PutItem key value) = None ->
  refuses (MetaDB.GetItem key) = None ->
  other <> key ->
  fst (MetaDB.writemeta refuses key value s) = Val tt
  /\ fst (MetaDB.getmeta refuses key (snd (MetaDB.writemeta refuses key value s)))
     = Val (Some (MetaDB.mkItem key value))
  /\ fst (MetaDB.getmeta refuses other (snd (MetaDB.writemeta refuses key value s)))
     = fst (MetaDB.getmeta refuses other s).
Proof.
  intros Hput Hget Hother. unfold_metadb. rewrite Hput. simpl. rewrite Hget.
  split; [reflexivity|]. split.
  - rewrite lookup_insert_eq. reflexivity.
  - destruct (refuses (MetaDB.GetItem other)); [reflexivity|].
    rewrite lookup_insert_ne by done. destruct (MetaDB.items s !! other); reflexivity.
Qed.

Lemma getmeta_after_writemeta_witness :
  fst (MetaDB.writemeta MetaDB.refuses_empty_key "1&2&3&units" "nm"
         (MetaDB.mkState {["1&2&3&units" := "um"]} [])) = Val tt
  /\ fst (MetaDB.getmeta MetaDB.refuses_empty_key "1&2&3&units"
            (snd (MetaDB.writemeta MetaDB.refuses_empty_key "1&2&3&units" "nm"
                    (MetaDB.mkState {["1&2&3&units" := "um"]} []))))
     = Val (Some (MetaDB.mkItem "1&2&3&units" "nm"))
  /\ fst (MetaDB.getmeta MetaDB.refuses_empty_key "1&2&4&units"
            (snd (MetaDB.writemeta MetaDB.refuses_empty_key "1&2&3&units" "nm"
                    (MetaDB.mkState {["1&2&3&units" := "um"]} []))))
     = fst (MetaDB.getmeta MetaDB.refuses_empty_key "1&2&4&units"
              (MetaDB.mkState {["1&2&3&units" := "um"]} [])).
Proof.
  apply (getmeta_after_writemeta MetaDB.refuses_empty_key "1&2&3&units" "nm"
           "1&2&4&units" (MetaDB.mkState {["1&2&3&units" := "um"]} [])).
  - reflexivity.
  - reflexivity.
  - discriminate.
Defined.

(** A key that is not in the table: [getmeta] returns [None] and raises
    nothing, and changes nothing but the output, to which it adds the key. *)
Theorem getmeta_missing_key (refuses : MetaDB.request -> option pyexn) (key : string)
    (s : MetaDB.state) :
  refuses (MetaDB.GetItem key) = None ->
  MetaDB.items s !! key = None ->
  MetaDB.getmeta refuses key s
  = (Val None, MetaDB.mkState (MetaDB.items s) (MetaDB.stdout s ++ [key])).
Proof.
  intros Hget Hnone. unfold_metadb. simpl. rewrite Hget, Hnone. reflexivity.
Qed.

Lemma getmeta_missing_key_witness :
  MetaDB.getmeta MetaDB.refuses_empty_key "1&2&3&units" (MetaDB.mkState ∅ [])
  = (Val None, MetaDB.mkState ∅ ([] ++ ["1&2&3&units"])).
Proof.
  apply (getmeta_missing_key MetaDB.refuses_empty_key "1&2&3&units" (MetaDB.mkState ∅ [])).
  - reflexivity.
  - reflexivity.
Defined.

(** Delete: [deletemeta] answers with the item as it was, when there was
    one; the key then reads as missing, also when it was missing before, and
    every other key reads as it did. *)
Theorem getmeta_after_deletemeta (refuses : MetaDB.request -> option pyexn)
    (key other : string) (s : MetaDB.state) :
  refuses (MetaDB.DeleteItem key) = None ->
  refuses (MetaDB.GetItem key) = None ->
  other <> key ->
  fst (MetaDB.deletemeta refuses key s)
  = Val (MetaDB.mkDeleteResponse (MetaDB.mkItem key <$> MetaDB.items s !! key))
  /\ fst (MetaDB.getmeta refuses key (snd (MetaDB.deletemeta refuses key s))) = Val None
  /\ fst (MetaDB.getmeta refuses other (snd (MetaDB.deletemeta refuses key s)))
     = fst (MetaDB.getmeta refuses other s).
Proof.
  intros Hdel Hget Hother. unfold_metadb. rewrite Hdel. simpl. rewrite Hget.
  split; [reflexivity|]. split.
  - rewrite lookup_delete_eq. reflexivity.
  - destruct (refuses (MetaDB.GetItem other)); [reflexivity|].
    rewrite lookup_delete_ne by done. destruct (MetaDB.items s !! other); reflexivity.
Qed.

Lemma getmeta_after_deletemeta_witness :
  fst (MetaDB.deletemeta MetaDB.refuses_empty_key "1&2&3&units"
         (MetaDB.mkState {["1&2&3&units" := "um"]} []))
  = Val (MetaDB.mkDeleteResponse
           (MetaDB.mkItem "1&2&3&units"
              <$> MetaDB.items (MetaDB.mkState {["1&2&3&units" := "um"]} [])
                  !! "1&2&3&units"))
  /\ fst (MetaDB.getmeta MetaDB.refuses_empty_key "1&2&3&units"
            (snd (MetaDB.deletemeta MetaDB.refuses_empty_key "1&2&3&units"
                    (MetaDB.mkState {["1&2&3&units" := "um"]} [])))) = Val None
  /\ fst (MetaDB.getmeta MetaDB.refuses_empty_key "1&2&4&units"
            (snd (MetaDB.deletemeta MetaDB.refuses_empty_key "1&2&3&units"
                    (MetaDB.mkState {["1&2&3&units" := "um"]} []))))
     = fst (MetaDB.getmeta MetaDB.refuses_empty_key "1&2&4&units"
              (MetaDB.mkState {["1&2&3&units" := "um"]} [])).
Proof.
  apply (getmeta_after_deletemeta MetaDB.refuses_empty_key "1&2&3&units" "1&2&4&units"
           (MetaDB.mkState {["1&2&3&units" := "um"]} [])).
  - reflexivity.
  - reflexivity.
  - discriminate.
Defined.

(** Update is a write: [updatemeta] does not ask for the key to be there;
    on a key that is missing it adds the item, and in every case it leaves
    the table as [writemeta] of the same key and value does and answers with
    the new value. *)
Theorem updatemeta_writes (refuses : MetaDB.request -> option pyexn) (key newvalue : string)
    (s : MetaDB.state) :
  refuses (MetaDB.UpdateItem key newvalue) = None ->
  refuses (MetaDB.PutItem key newvalue) = None ->
  refuses (MetaDB.GetItem key) = None ->
  fst (MetaDB.updatemeta refuses key newvalue s) = Val (MetaDB.mkUpdateResponse newvalue)
  /\ snd (MetaDB.updatemeta refuses key newvalue s)
     = snd (MetaDB.writemeta refuses key newvalue s)
  /\ fst (MetaDB.getmeta refuses key (snd (MetaDB.updatemeta refuses key newvalue s)))
     = Val (Some (MetaDB.mkItem key newvalue)).
Proof.
  intros Hupd Hput Hget. unfold_metadb. rewrite Hupd, Hput. simpl. rewrite Hget.
  split; [reflexivity|]. split; [reflexivity|].
  rewrite lookup_insert_eq. reflexivity.
Qed.

Lemma updatemeta_writes_witness :
  fst (MetaDB.updatemeta MetaDB.refuses_empty_key "1&2&3&units" "nm" (MetaDB.mkState ∅ []))
  = Val (MetaDB.mkUpdateResponse "nm")
  /\ snd (MetaDB.updatemeta MetaDB.refuses_empty_key "1&2&3&units" "nm"
            (MetaDB.mkState ∅ []))
     = snd (MetaDB.writemeta MetaDB.refuses_empty_key "1&2&3&units" "nm"
              (MetaDB.mkState ∅ []))
  /\ fst (MetaDB.getmeta MetaDB.refuses_empty_key "1&2&3&units"
            (snd (MetaDB.updatemeta MetaDB.refuses_empty_key "1&2&3&units" "nm"
                    (MetaDB.mkState ∅ []))))
     = Val (Some (MetaDB.mkItem "1&2&3&units" "nm")).
Proof.
  apply (updatemeta_writes MetaDB.refuses_empty_key "1&2&3&units" "nm"
           (MetaDB.mkState ∅ [])); reflexivity.
Defined.

(** * Properties of the keys of the fixtures *)

Import SetupDB.

Lemma append_amp (a b : string) : (a +:+ "&") +:+ b = a +:+ String "&" b.
Proof.
  induction a as [|c a IH]; [reflexivity|].
  rewrite !append_cons. by rewrite IH.
Qed.

Lemma count_amp_app (a b : string) : count_amp (a +:+ b) = (count_amp a + count_amp b)%nat.
Proof.
  induction a as [|c a IH]; [reflexivity|].
  rewrite append_cons. simpl. rewrite IH. lia.
Qed.

Lemma count_amp_pretty_N_go (x : N) :
  forall s, count_amp (pretty_N_go x s) = count_amp s.
Proof.
  induction (N.lt_wf_0 x) as [x _ IH]; intros s.
  destruct (decide (x = 0)%N) as [-> | Hx]; [by rewrite pretty_N_go_0|].
  rewrite pretty_N_go_step by lia.
  rewrite IH by (apply N.div_lt; lia).
  unfold pretty_N_char. by repeat case_match.
Qed.

Lemma count_amp_pretty_N (x : N) : count_amp (pretty x) = 0%nat.
Proof.
  unfold pretty, pretty_N. case_decide; [reflexivity|]. apply count_amp_pretty_N_go.
Qed.

(** A number in decimal has no separator in it. *)
Lemma count_amp_str (n : Z) : count_amp (str n) = 0%nat.
Proof.
  unfold str, pretty, pretty_Z. destruct n as [|p|p]; [reflexivity| |].
  - apply (count_amp_pretty_N (N.pos p)).
  - rewrite count_amp_app. simpl. apply (count_amp_pretty_N (N.pos p)).
Qed.

Lemma append_assoc_str (a b c : string) : (a +:+ b) +:+ c = a +:+ (b +:+ c).
Proof.
  induction a as [|x a IH]; [reflexivity|].
  rewrite !append_cons. by rewrite IH.
Qed.

Lemma channel_key_normal (a b c : string) :
  (((a +:+ "&") +:+ b) +:+ "&") +:+ c = a +:+ String "&" (b +:+ String "&" c).
Proof. rewrite !append_amp, append_assoc_str. reflexivity. Qed.

(** Two keys that agree and whose first parts have no separator agree part
    by part. *)
Lemma split_at_amp (a a' b b' : string) :
  count_amp a = 0%nat -> count_amp a' = 0%nat ->
  a +:+ String "&" b = a' +:+ String "&" b' -> a = a' /\ b = b'.
Proof.
  revert a'.
  induction a as [|c a IH]; intros [|c' a'] Ha Ha' H.
  - split; [reflexivity|]. by injection H.
  - rewrite append_cons in H. injection H as <- _. simpl in Ha'. discriminate Ha'.
  - rewrite append_cons in H. injection H as -> _. simpl in Ha. discriminate Ha.
  - rewrite !append_cons in H. injection H as -> H.
    simpl in Ha, Ha'. destruct (Ascii.eqb c' "&"%char); [discriminate Ha|].
    destruct (IH a' Ha Ha' H) as [-> ->]. done.
Qed.

(** The lookup key of a channel names its collection, experiment and
    channel: two channels with the same lookup key have the same three
    primary keys. *)
Theorem channel_lkup_key_inj (col_pk exp_pk channel_pk col_pk' exp_pk' channel_pk' : Z) :
  channel_lkup_key col_pk exp_pk channel_pk = channel_lkup_key col_pk' exp_pk' channel_pk' ->
  col_pk = col_pk' /\ exp_pk = exp_pk' /\ channel_pk = channel_pk'.
Proof.
  unfold channel_lkup_key. rewrite !channel_key_normal. intros H.
  apply split_at_amp in H as [Hc H]; [|apply count_amp_str..].
  apply split_at_amp in H as [He Hch]; [|apply count_amp_str..].
  unfold str in *. repeat split; by apply (inj pretty).
Qed.

Lemma channel_lkup_key_inj_witness : 1 = 1 /\ 2 = 2 /\ 3 = 3.
Proof. apply (channel_lkup_key_inj 1 2 3 1 2 3). reflexivity. Defined.

(** The lookup keys of the levels are apart: a collection, an experiment, a
    channel and a time sample of a channel never have the same lookup key,
    whatever their primary keys. *)
Theorem lookup_key_levels_apart (c e ch c' e' c'' t : Z) :
  count_amp (collection_lkup_key c'') = 0%nat
  /\ count_amp (experiment_lkup_key c' e') = 1%nat
  /\ count_amp (channel_lkup_key c e ch) = 2%nat
  /\ count_amp (lookup_key (time_record
                              (mkBossLookup (channel_lkup_key c e ch) "" "" None None) t))
     = 3%nat
  /\ collection_lkup_key c'' <> experiment_lkup_key c' e'
  /\ collection_lkup_key c'' <> channel_lkup_key c e ch
  /\ experiment_lkup_key c' e' <> channel_lkup_key c e ch
  /\ (forall k, k = collection_lkup_key c'' \/ k = experiment_lkup_key c' e'
                \/ k = channel_lkup_key c e ch ->
                (channel_lkup_key c e ch +:+ "&") +:+ str t <> k).
Proof.
  assert (H0 : count_amp (collection_lkup_key c'') = 0%nat) by apply count_amp_str.
  assert (H1 : count_amp (experiment_lkup_key c' e') = 1%nat).
  { unfold experiment_lkup_key. rewrite !count_amp_app, !count_amp_str. reflexivity. }
  assert (H2 : count_amp (channel_lkup_key c e ch) = 2%nat).
  { unfold channel_lkup_key. rewrite !count_amp_app, !count_amp_str. reflexivity. }
  assert (H3 : count_amp ((channel_lkup_key c e ch +:+ "&") +:+ str t) = 3%nat).
  { rewrite !count_amp_app, H2, count_amp_str. reflexivity. }
  repeat split; try assumption.
  - intros H. rewrite H in H0. lia.
  - intros H. rewrite H in H0. lia.
  - intros H. rewrite H in H1. lia.
  - intros k [-> | [-> | ->]] H; rewrite H in H3; lia.
Qed.

(** The boss key of a channel names its collection, experiment and channel
    as long as the names of the collection and the experiment have no
    separator in them. *)
Theorem channel_bs_key_inj (col exp channel col' exp' channel' : string) :
  count_amp col = 0%nat -> count_amp exp = 0%nat ->
  count_amp col' = 0%nat -> count_amp exp' = 0%nat ->
  channel_bs_key col exp channel = channel_bs_key col' exp' channel' ->
  col = col' /\ exp = exp' /\ channel = channel'.
Proof.
  unfold channel_bs_key. rewrite !channel_key_normal. intros Hc He Hc' He' H.
  apply split_at_amp in H as [-> H]; [|assumption..].
  apply split_at_amp in H as [-> ->]; [|assumption..].
  done.
Qed.

Lemma channel_bs_key_inj_witness :
  "col1" = "col1" /\ "exp1" = "exp1" /\ "channel1" = "channel1".
Proof.
  apply (channel_bs_key_inj "col1" "exp1" "channel1" "col1" "exp1" "channel1");
    reflexivity.
Defined.
